(** * fast_server.py: the image-ingest echo service

    A shallow embedding of [fast_server.py] and the properties of its three
    transports (JSON POST, multipart POST, WebSocket), of the command
    generator and of the persistence sink.

    Conventions of the embedding.
    - A Python [str] is a [string]; each [ascii] stands for one code point
      (U+0000 to U+00FF).  Every library function used by the program
      ([str.startswith], [str.find], slicing, [str.encode('ascii')]) treats
      all code points above U+007F alike.
    - Python [bytes] are lists of integers in [0, 255].
    - A call that may raise returns a [result]; [except Exception] is a
      [match] on it.
    - Handlers are state transformers over a [World] that holds what the
      handler can observe or change outside its arguments: the clock, the
      tasks created, the frames sent on the socket and the file system.

    What the embedding leaves out.
    - Strings with code points above U+00FF, among them lone surrogates,
      which a Python [str] can hold.
    - The rendering of a response or of a frame to bytes ([json.dumps] and
      the UTF-8 encoding).  A [JSONResponse] here is the status and the
      content the handler hands over.  For the strings of the embedding the
      rendering cannot fail; for a [str] with a lone surrogate it raises
      [UnicodeEncodeError] where the response is built.
    - The interleaving of coroutines.  A handler, and a save, is run from
      start to end.  Tasks are recorded in the order of their creation;
      when the event loop runs them is not fixed, and a statement about
      saves says in which order they are run.
    - On the socket, [websocket_endpoint] is the endpoint on a live
      connection, where every [ws.receive()] returns a message and every
      send goes through; [Socket.websocket_endpoint] is the endpoint with
      its two [try] statements on a connection where these calls may
      raise. *)

From Stdlib Require Import ZArith NArith Bool Ascii String List Lia SpecFloat.
From stdpp Require Import gmap strings.
Import ListNotations.

Set Warnings "-register-all".
Local Open Scope Z_scope.

Abbreviation str := string (only parsing).
Abbreviation bytes := (list Z) (only parsing).

(** ** Exceptions *)

Inductive exn : Set :=
  | ValueError
  | binascii_Error
  | AttributeError
  | JSONDecodeError
  | OSError
  | UnicodeEncodeError
  | RuntimeError
  | WebSocketDisconnect
  | CancelledError.

(** [isinstance(e, Exception)]: of the exceptions above only
    [asyncio.CancelledError] is a [BaseException] that is not an
    [Exception], and so passes through [except Exception]. *)
Definition is_Exception (e : exn) : bool :=
  match e with
  | CancelledError => false
  | _ => true
  end.

Inductive result (A : Type) : Type :=
  | Ok (a : A)
  | Raise (e : exn).
Arguments Ok {A} a.
Arguments Raise {A} e.

Definition rbind {A B} (r : result A) (k : A -> result B) : result B :=
  match r with
  | Ok a => k a
  | Raise e => Raise e
  end.

(** ** The part of the Python runtime the program calls *)

Module Py.

(** *** str *)

Definition ord (c : ascii) : Z := Z.of_N (N_of_ascii c).

Definition len (s : str) : Z := Z.of_nat (String.length s).

(** [s.startswith(p)] *)
Definition startswith (s p : str) : bool := String.prefix p s.

(** [s.find(sub)]: the lowest index at which [sub] occurs in [s], or -1. *)
Fixpoint find_from (i : Z) (s sub : str) : Z :=
  if String.prefix sub s then i
  else match s with
       | EmptyString => -1
       | String _ s' => find_from (i + 1) s' sub
       end.

Definition find (s sub : str) : Z := find_from 0 s sub.

Fixpoint drop_chars (n : nat) (s : str) : str :=
  match n, s with
  | O, _ => s
  | S n', String _ s' => drop_chars n' s'
  | S _, EmptyString => EmptyString
  end.

(** [s[i:]]; a negative [i] counts from the end. *)
Definition slice_from (s : str) (i : Z) : str :=
  let start := if i <? 0 then Z.max 0 (len s + i) else i in
  drop_chars (Z.to_nat start) s.

(** [s.encode('ascii')] inside [base64._bytes_from_decode_data]: a code
    point above U+007F makes [b64decode] raise [ValueError]. *)
Fixpoint encode_ascii (s : str) : result bytes :=
  match s with
  | EmptyString => Ok []
  | String c s' =>
      if ord c <? 128
      then rbind (encode_ascii s') (fun bs => Ok (ord c :: bs))
      else Raise ValueError
  end.

(** *** binascii.a2b_base64, non-strict mode (after CPython's binascii.c) *)

Definition BASE64_PAD : Z := 61.

(** The decoding table: the value of an alphabet character, and a value
    of at least 64 for every other byte. *)
Definition table_a2b_base64 (c : Z) : Z :=
  if (65 <=? c) && (c <=? 90) then c - 65
  else if (97 <=? c) && (c <=? 122) then c - 71
  else if (48 <=? c) && (c <=? 57) then c + 4
  else if c =? 43 then 62
  else if c =? 47 then 63
  else if c =? 61 then 0
  else 255.

Definition uchar (z : Z) : Z := Z.land z 255.

(** The scan over the input bytes.  [quad_pos] is the position inside the
    current group of four characters, [leftchar] the bits not yet written,
    [pads] the number of pad characters seen since the last data character,
    [bin_data] the output so far. *)
Fixpoint a2b_scan (ascii_data : bytes) (quad_pos leftchar pads : Z)
    (bin_data : bytes) : result bytes :=
  match ascii_data with
  | [] =>
      if quad_pos =? 0 then Ok bin_data else Raise binascii_Error
  | this_ch :: rest =>
      if this_ch =? BASE64_PAD then
        if 2 <=? quad_pos then
          let pads := pads + 1 in
          if 4 <=? quad_pos + pads then Ok bin_data
          else a2b_scan rest quad_pos leftchar pads bin_data
        else a2b_scan rest quad_pos leftchar pads bin_data
      else
        let this_ch := table_a2b_base64 this_ch in
        if 64 <=? this_ch then a2b_scan rest quad_pos leftchar pads bin_data
        else
          if quad_pos =? 0 then
            a2b_scan rest 1 this_ch 0 bin_data
          else if quad_pos =? 1 then
            a2b_scan rest 2 (Z.land this_ch 15) 0
              (bin_data ++ [uchar (Z.lor (Z.shiftl leftchar 2) (Z.shiftr this_ch 4))])
          else if quad_pos =? 2 then
            a2b_scan rest 3 (Z.land this_ch 3) 0
              (bin_data ++ [uchar (Z.lor (Z.shiftl leftchar 4) (Z.shiftr this_ch 2))])
          else
            a2b_scan rest 0 0 0
              (bin_data ++ [uchar (Z.lor (Z.shiftl leftchar 6) this_ch)])
  end.

Definition a2b_base64 (data : bytes) : result bytes := a2b_scan data 0 0 0 [].

(** [base64.b64decode(s)] with the defaults [altchars=None],
    [validate=False], on a [str] argument. *)
Definition b64decode (s : str) : result bytes :=
  rbind (encode_ascii s) a2b_base64.

(** *** Objects

    The values [json.loads] can return, which are also the values a label
    can take on the WebSocket path.  A [dict] keeps its keys in insertion
    order; its keys are pairwise distinct. *)

Inductive pyval : Type :=
  | PyNone
  | PyBool (b : bool)
  | PyInt (z : Z)
  | PyFloat (f : spec_float)
  | PyStr (s : str)
  | PyList (l : list pyval)
  | PyDict (d : list (str * pyval)).

(** Truth value testing, as in [if label:]. *)
Definition truthy (v : pyval) : bool :=
  match v with
  | PyNone => false
  | PyBool b => b
  | PyInt z => negb (z =? 0)
  | PyFloat (S754_zero _) => false
  | PyFloat _ => true
  | PyStr EmptyString => false
  | PyStr _ => true
  | PyList [] => false
  | PyList _ => true
  | PyDict [] => false
  | PyDict _ => true
  end.

(** [d.get(k)] on a dict, as an option: [None] when [k] is not a key. *)
Fixpoint dict_lookup (d : list (str * pyval)) (k : str) : option pyval :=
  match d with
  | [] => None
  | (k', v) :: d' => if String.eqb k' k then Some v else dict_lookup d' k
  end.

(** [d[k] = v]: an existing key keeps its place, a new key goes last. *)
Fixpoint dict_setitem (d : list (str * pyval)) (k : str) (v : pyval)
    : list (str * pyval) :=
  match d with
  | [] => [(k, v)]
  | (k', v') :: d' =>
      if String.eqb k' k then (k', v) :: d' else (k', v') :: dict_setitem d' k v
  end.

(** [msg.get(k)] on an arbitrary object: only a dict has the method, and a
    missing key gives [None]. *)
Definition get (msg : pyval) (k : str) : result pyval :=
  match msg with
  | PyDict d => Ok (default PyNone (dict_lookup d k))
  | _ => Raise AttributeError
  end.

(** An optional string argument ([Optional[str]]) as an object. *)
Definition of_optional (o : option str) : pyval :=
  match o with
  | Some s => PyStr s
  | None => PyNone
  end.

(** *** pathlib, on POSIX

    A [PurePosixPath] is the list of its parts. *)

(** [s.split("/")] *)
Fixpoint split_slash (s : str) : list str :=
  match s with
  | EmptyString => [EmptyString]
  | String c s' =>
      if Ascii.eqb c "/" then EmptyString :: split_slash s'
      else match split_slash s' with
           | h :: t => String c h :: t
           | [] => [String c EmptyString]
           end
  end.

(** The parts that a string adds to a path: its components, but for the
    empty ones and the dots. *)
Definition path_parts (s : str) : list str :=
  List.filter (fun x => negb (String.eqb x "") && negb (String.eqb x "."))
    (split_slash s).

(** The root of a string that begins with a slash: exactly two slashes
    are kept, any other number is one. *)
Definition path_root (s : str) : str :=
  if startswith s "//" && negb (startswith s "///") then "//" else "/".

(** [p / s]: the parts of [s] after those of [p], or [s] alone when it
    is absolute. *)
Definition joinpath (p : list str) (s : str) : list str :=
  if startswith s "/" then path_root s :: path_parts s else p ++ path_parts s.

(** *** datetime *)

Record datetime : Set := mkDatetime {
  year : Z; month : Z; day : Z;
  hour : Z; minute : Z; second : Z; microsecond : Z }.

(** The ranges the [datetime] type enforces on its fields. *)
Definition datetime_ok (d : datetime) : Prop :=
  1 <= year d <= 9999 /\ 1 <= month d <= 12 /\ 1 <= day d <= 31 /\
  0 <= hour d <= 23 /\ 0 <= minute d <= 59 /\ 0 <= second d <= 59 /\
  0 <= microsecond d <= 999999.

Definition digit_char (d : Z) : ascii := ascii_of_N (Z.to_N (48 + d)).

(** The decimal numeral of a non-negative [n], written in front of [acc]. *)
Fixpoint decimal_acc (fuel : nat) (n : Z) (acc : str) : str :=
  match fuel with
  | O => acc
  | S fuel' =>
      let acc' := String (digit_char (n mod 10)) acc in
      if n / 10 =? 0 then acc' else decimal_acc fuel' (n / 10) acc'
  end.

Definition decimal (n : Z) : str :=
  decimal_acc (S (Z.to_nat (Z.log2 n))) n EmptyString.

Fixpoint zeros (k : nat) (s : str) : str :=
  match k with
  | O => s
  | S k' => String "0"%char (zeros k' s)
  end.

(** ["%0wd" % n] for a non-negative [n]. *)
Definition fmt_0d (w : nat) (n : Z) : str :=
  let d := decimal n in zeros (w - String.length d) d.

(** [d.isoformat()] for [d] aware, in UTC. *)
Definition isoformat (d : datetime) : str :=
  fmt_0d 4 (year d) +:+ "-" +:+ fmt_0d 2 (month d) +:+ "-" +:+ fmt_0d 2 (day d)
  +:+ "T" +:+ fmt_0d 2 (hour d) +:+ ":" +:+ fmt_0d 2 (minute d)
  +:+ ":" +:+ fmt_0d 2 (second d)
  +:+ (if microsecond d =? 0 then "" else "." +:+ fmt_0d 6 (microsecond d))
  +:+ "+00:00".

(** [d.strftime("%Y%m%dT%H%M%SZ")].  The C library pads [%Y] to four
    digits or not at all; the two agree from year 1000 on. *)
Definition strftime_compact (d : datetime) : str :=
  fmt_0d 4 (year d) +:+ fmt_0d 2 (month d) +:+ fmt_0d 2 (day d)
  +:+ "T" +:+ fmt_0d 2 (hour d) +:+ fmt_0d 2 (minute d) +:+ fmt_0d 2 (second d)
  +:+ "Z".

End Py.

Import Py.

(** ** The world around a handler *)

(** What the runtime and the operating system do on the calls that
    touch storage.  A file is known by a number; which file a path names,
    if any, is for the system to say, and so two paths may name one file.
    - [opening p]: what [open(p, "wb")] does: it gives the file that [p]
      names, created if need be, or raises ([ValueError] for a NUL in the
      path, [UnicodeEncodeError] for a path that cannot be encoded,
      [OSError] for a missing directory, and so on);
    - [write_fault f data]: [None] when writing [data] to [f] and closing
      it go through; [Some (e, rest)] when they fail with the exception
      [e] ([OSError] for a full disk), leaving [rest] in the file. *)
Record System : Type := mkSystem {
  opening : list str -> result N;
  write_fault : N -> list Z -> option (exn * list Z) }.

(** A coroutine handed to [BackgroundTasks.add_task] or to
    [asyncio.create_task]: a call of [save_image] that nobody awaits. *)
Inductive task : Type :=
  | save_image_call (image_bytes : bytes) (label : pyval).

Record World : Type := mkWorld {
  clock : nat -> datetime;      (* what the n-th reading of the clock gives *)
  clock_reads : nat;            (* readings made so far *)
  scheduled : list task;        (* tasks scheduled so far, oldest first *)
  sent : list pyval;            (* objects given to ws.send_json, oldest first *)
  files : gmap N (list Z);      (* the contents of the files *)
  system : System               (* how opening and writing turn out *)
}.

Definition M (A : Type) : Type := World -> result A * World.

#[global] Instance M_ret : MRet M := fun A a w => (Ok a, w).
#[global] Instance M_bind : MBind M := fun A B k c w =>
  match c w with
  | (Ok a, w') => k a w'
  | (Raise e, w') => (Raise e, w')
  end.

(** [datetime.now(timezone.utc)] *)
Definition now_utc : M datetime := fun w =>
  (Ok (clock w (clock_reads w)),
   mkWorld (clock w) (S (clock_reads w)) (scheduled w) (sent w) (files w) (system w)).

(** [background_tasks.add_task(f, ...)] and [asyncio.create_task(f(...))]:
    the task is recorded; it is not run here.  Starlette runs a background
    task once the response is sent; the event loop runs a created task
    from the next await that suspends the handler on. *)
Definition add_task (t : task) : M unit := fun w =>
  (Ok tt,
   mkWorld (clock w) (clock_reads w) (scheduled w ++ [t]) (sent w) (files w) (system w)).

(** [await ws.send_json(obj)] on a live connection: the send goes
    through.  [Socket.send_json] is the send that may raise. *)
Definition send_json (obj : pyval) : M unit := fun w =>
  (Ok tt,
   mkWorld (clock w) (clock_reads w) (scheduled w) (sent w ++ [obj]) (files w) (system w)).

Definition set_files (fs : gmap N (list Z)) (w : World) : World :=
  mkWorld (clock w) (clock_reads w) (scheduled w) (sent w) fs (system w).

(** [aiofiles.open(p, "wb")]: the file is created or truncated, or an
    exception is raised and nothing changes. *)
Definition open_wb (p : list str) : M N := fun w =>
  match opening (system w) p with
  | Ok f => (Ok f, set_files (<[f := []]> (files w)) w)
  | Raise e => (Raise e, w)
  end.

(** [await f.write(data)] on a file opened by [open_wb], up to the end
    of the [async with] block, where the file is closed. *)
Definition file_write (f : N) (data : bytes) : M unit := fun w =>
  match write_fault (system w) f data with
  | None => (Ok tt, set_files (<[f := default [] (files w !! f) ++ data]> (files w)) w)
  | Some (e, rest) => (Raise e, set_files (<[f := rest]> (files w)) w)
  end.

(** ** fast_server.py *)

(** The module-level settings (lines 19-20); the directory is given by
    the parts of its path. *)
Class Settings : Type := {
  STORE_IMAGES : bool;
  RECEIVED_IMAGES_DIR : list str }.

(** Library functions of which only the interface is used here:
    [json.loads], and [str()] of an object that is not a string. *)
Class Library : Type := {
  json_loads : str -> result pyval;
  str_of_object : pyval -> str }.

(** [class Base64Upload(BaseModel)] *)
Record Base64Upload : Type := mkBase64Upload {
  label : option str;
  image : str }.

(** An [UploadFile], as far as the handler uses it: what [read()] does. *)
Record UploadFile : Type := mkUploadFile {
  read : result bytes }.

(** [JSONResponse(status_code=..., content=...)], before it is rendered:
    the status, 200 when none is given, and the content. *)
Record JSONResponse : Type := mkJSONResponse {
  status_code : Z;
  content : pyval }.

(** What [ws.receive()] returns: [msg_text] and [msg_bytes] are [None]
    when the key is missing or bound to [None]. *)
Record asgi_message : Type := mkMessage {
  msg_type : str;
  msg_text : option str;
  msg_bytes : option bytes }.

Section Server.

Context {settings : Settings} {library : Library}.

Definition current_iso_timestamp : M str :=
  d ← now_utc; mret (isoformat d).

Definition process_image_bytes (image_bytes : bytes) : M unit :=
  mret tt.

Definition make_control_command (label : pyval) : list (str * pyval) :=
  let cmd := [("action", PyStr "ACK")] in
  if truthy label then dict_setitem cmd "labelReceived" label else cmd.

(** The replacement field of an f-string, [f"{label}"]. *)
Definition format_field (label : pyval) : str :=
  match label with
  | PyStr s => s
  | _ => str_of_object label
  end.

Definition save_image (image_bytes : bytes) (label : pyval) : M unit :=
  if negb STORE_IMAGES then mret tt
  else
    d ← now_utc;
    let timestamp := strftime_compact d in
    let suffix := if truthy label then "_" +:+ format_field label else "" in
    let filename := timestamp +:+ suffix +:+ ".jpg" in
    let path := joinpath RECEIVED_IMAGES_DIR filename in
    f ← open_wb path;
    file_write f image_bytes.

(** Lines 88-92 and 163-166: the data URI prefix. *)
Definition strip_data_uri (img_str : str) : str :=
  if startswith img_str "data:" then
    let comma := find img_str "," in
    if negb (comma =? -1) then slice_from img_str (comma + 1) else img_str
  else img_str.

Definition ack_envelope (cmd : list (str * pyval)) : M pyval :=
  ts ← current_iso_timestamp;
  mret (PyDict [("command", PyDict cmd); ("commandSentAt", PyStr ts)]).

Definition upload_base64 (payload : Base64Upload) : M JSONResponse :=
  let img_str := strip_data_uri (image payload) in
  match b64decode img_str with
  | Raise _ =>
      mret (mkJSONResponse 400 (PyDict [("error", PyStr "Invalid base64 image")]))
  | Ok image_bytes =>
      add_task (save_image_call image_bytes (of_optional (label payload)));;
      process_image_bytes image_bytes;;
      let cmd := make_control_command (of_optional (label payload)) in
      response ← ack_envelope cmd;
      mret (mkJSONResponse 200 response)
  end.

Definition upload_form (label : option str) (image : UploadFile) : M JSONResponse :=
  match read image with
  | Raise _ =>
      mret (mkJSONResponse 500 (PyDict [("error", PyStr "Failed to read uploaded file")]))
  | Ok contents =>
      add_task (save_image_call contents (of_optional label));;
      process_image_bytes contents;;
      let cmd := make_control_command (of_optional label) in
      response ← ack_envelope cmd;
      mret (mkJSONResponse 200 response)
  end.

Definition root : pyval :=
  PyDict [("message", PyStr "Image upload server is running")].

(** How the [try] block of a text frame (lines 156-173) ends when nothing
    is raised: with the label and the decoded bytes, or in the [else]
    branch for an image that is not a string. *)
Inductive text_frame : Type :=
  | decoded (label : pyval) (image_bytes : bytes)
  | not_a_string.

Definition parse_text_frame (text : str) : result text_frame :=
  rbind (json_loads text) (fun msg =>
  rbind (get msg "label") (fun label =>
  rbind (get msg "image") (fun img_str =>
  match img_str with
  | PyStr img_str =>
      rbind (b64decode (strip_data_uri img_str)) (fun image_bytes =>
      Ok (decoded label image_bytes))
  | _ => Ok not_a_string
  end))).

Inductive loop_control : Set := next_iteration | leave_loop.

(** One iteration of the [while True] loop on a live connection, on the
    message [data] that [ws.receive()] returned.  With sends that go
    through, [except Exception] (line 173) has only the exceptions of the
    parsing to catch. *)
Definition websocket_iteration (data : asgi_message) : M loop_control :=
  if String.eqb (msg_type data) "websocket.receive" then
    match msg_text data, msg_bytes data with
    | Some text, _ =>
        match parse_text_frame text with
        | Raise _ =>
            send_json (PyDict [("error", PyStr "Malformed JSON or base64 decode error")]);;
            mret next_iteration
        | Ok not_a_string =>
            send_json (PyDict [("error",
              PyStr "Invalid message format: 'image' must be base64 string")]);;
            mret next_iteration
        | Ok (decoded label image_bytes) =>
            add_task (save_image_call image_bytes label);;
            process_image_bytes image_bytes;;
            let cmd := make_control_command label in
            frame ← ack_envelope cmd;
            send_json frame;;
            mret next_iteration
        end
    | None, Some image_bytes =>
        add_task (save_image_call image_bytes PyNone);;
        process_image_bytes image_bytes;;
        let cmd := make_control_command PyNone in
        frame ← ack_envelope cmd;
        send_json frame;;
        mret next_iteration
    | None, None => mret next_iteration
    end
  else if String.eqb (msg_type data) "websocket.disconnect" then mret leave_loop
  else mret next_iteration.

(** Where the endpoint stands once the messages received so far are used
    up: suspended in [ws.receive()], or returned. *)
Inductive endpoint_state : Set := awaiting_receive | returned.

(** The endpoint after [ws.accept()] on a live connection, run on the
    messages that the successive calls of [ws.receive()] return.  Nothing
    raises [WebSocketDisconnect] here, and [except WebSocketDisconnect]
    (line 203) has nothing to catch; [Socket.websocket_endpoint] has it. *)
Fixpoint websocket_endpoint (incoming : list asgi_message) : M endpoint_state :=
  match incoming with
  | [] => mret awaiting_receive
  | data :: rest =>
      ctl ← websocket_iteration data;
      match ctl with
      | next_iteration => websocket_endpoint rest
      | leave_loop => mret returned
      end
  end.

(** The event loop running a scheduled task, from start to end with no
    other task in between: nobody awaits its outcome. *)
Definition run_task (t : task) (w : World) : World :=
  match t with
  | save_image_call image_bytes label => snd (save_image image_bytes label w)
  end.

End Server.

(** ** Notions used in the statements *)

Definition is_digit (c : ascii) : bool := (48 <=? ord c) && (ord c <=? 57).

(** Reads exactly [w] decimal digits and gives their value, continuing
    the numeral [acc], and the rest of the string. *)
Fixpoint read_digits (w : nat) (s : str) (acc : Z) : option (Z * str) :=
  match w with
  | O => Some (acc, s)
  | S w' =>
      match s with
      | String c s' =>
          if is_digit c then read_digits w' s' (10 * acc + (ord c - 48)) else None
      | EmptyString => None
      end
  end.

(** Reads the character [c]. *)
Definition read_char (c : ascii) (s : str) : option str :=
  match s with
  | String c' s' => if Ascii.eqb c c' then Some s' else None
  | EmptyString => None
  end.

Definition in_range (lo hi n : Z) : bool := (lo <=? n) && (n <=? hi).

(** An ISO 8601 date and time in UTC, extended format:
    [YYYY-MM-DDTHH:MM:SS], an optional fraction of six digits, and the
    designator [Z] or the offset [+00:00].  The parser gives the instant
    that a well-formed string denotes. *)
Definition parse_iso8601_utc (s : str) : option datetime :=
  '(y, s) ← read_digits 4 s 0; s ← read_char "-" s;
  '(mo, s) ← read_digits 2 s 0; s ← read_char "-" s;
  '(d, s) ← read_digits 2 s 0; s ← read_char "T" s;
  '(h, s) ← read_digits 2 s 0; s ← read_char ":" s;
  '(mi, s) ← read_digits 2 s 0; s ← read_char ":" s;
  '(se, s) ← read_digits 2 s 0;
  '(us, s) ← match read_char "." s with
              | Some s' => read_digits 6 s' 0
              | None => Some (0, s)
              end;
  if (String.eqb s "Z" || String.eqb s "+00:00")
     && in_range 1 9999 y && in_range 1 12 mo && in_range 1 31 d
     && in_range 0 23 h && in_range 0 59 mi && in_range 0 59 se
  then Some (mkDatetime y mo d h mi se us)
  else None.

Definition iso8601_utc_well_formed (s : str) : bool :=
  bool_decide (is_Some (parse_iso8601_utc s)).

(** The shape [YYYYMMDDTHHMMSSZ]: eight digits, [T], six digits, [Z]. *)
Definition compact_timestamp_shape (s : str) : bool :=
  match read_digits 8 s 0 with
  | Some (_, s) =>
      match read_char "T" s with
      | Some s =>
          match read_digits 6 s 0 with
          | Some (_, s) => String.eqb s "Z"
          | None => false
          end
      | None => false
      end
  | None => false
  end.

Definition is_pad_char (c : ascii) : bool := ord c =? BASE64_PAD.

(** Characters of the base64 alphabet: [A-Z], [a-z], [0-9], [+], [/]. *)
Definition is_base64_char (c : ascii) : bool :=
  negb (is_pad_char c) && (table_a2b_base64 (ord c) <? 64).

Fixpoint all_chars (p : ascii -> bool) (s : str) : bool :=
  match s with
  | EmptyString => true
  | String c s' => p c && all_chars p s'
  end.

Fixpoint filter_chars (p : ascii -> bool) (s : str) : str :=
  match s with
  | EmptyString => EmptyString
  | String c s' => if p c then String c (filter_chars p s') else filter_chars p s'
  end.

Fixpoint count_chars (p : ascii -> bool) (s : str) : Z :=
  match s with
  | EmptyString => 0
  | String c s' => (if p c then 1 else 0) + count_chars p s'
  end.

(** A base64 payload: alphabet characters and padding only. *)
Definition base64_text (s : str) : bool :=
  all_chars (fun c => is_base64_char c || is_pad_char c) s.

Definition is_ascii_char (c : ascii) : bool := ord c <? 128.

(** The characters of [s] that the decoder looks at. *)
Definition base64_filtered (s : str) : str :=
  filter_chars (fun c => is_base64_char c || is_pad_char c) s.

(** The [command] object of an acknowledgment, as a dict. *)
Definition command_of (envelope : pyval) : option (list (str * pyval)) :=
  match envelope with
  | PyDict d =>
      match dict_lookup d "command" with
      | Some (PyDict cmd) => Some cmd
      | _ => None
      end
  | _ => None
  end.

(** The field [labelReceived] of an acknowledgment: [None] when the
    command has no such key. *)
Definition label_received (envelope : pyval) : option pyval :=
  cmd ← command_of envelope; dict_lookup cmd "labelReceived".

Definition malformed_error : pyval :=
  PyDict [("error", PyStr "Malformed JSON or base64 decode error")].

Definition format_error : pyval :=
  PyDict [("error", PyStr "Invalid message format: 'image' must be base64 string")].

(** The acknowledgment for [label], sent at the instant [d]. *)
Definition ack (label : pyval) (d : datetime) : pyval :=
  PyDict [("command", PyDict (make_control_command label));
          ("commandSentAt", PyStr (isoformat d))].

(** The instant the next reading of the clock gives. *)
Definition next_now (w : World) : datetime := clock w (clock_reads w).

(** The world after an HTTP handler has scheduled [t] and read the clock,
    and after a WebSocket iteration has also sent [frame]. *)
Definition acked (t : task) (w : World) : World :=
  mkWorld (clock w) (S (clock_reads w)) (scheduled w ++ [t]) (sent w)
    (files w) (system w).

Definition acked_on_socket (t : task) (frame : pyval) (w : World) : World :=
  mkWorld (clock w) (S (clock_reads w)) (scheduled w ++ [t]) (sent w ++ [frame])
    (files w) (system w).

Definition text_message (text : str) (b : option bytes) : asgi_message :=
  mkMessage "websocket.receive" (Some text) b.

Definition binary_message (image_bytes : bytes) : asgi_message :=
  mkMessage "websocket.receive" None (Some image_bytes).

(** [acknowledged label envelope]: a request that carries [label] was
    answered with the acknowledgment [envelope], on one of the three
    transports that carry a label. *)
Inductive acknowledged `{Library} : pyval -> pyval -> Prop :=
  | ack_json payload w r w' :
      upload_base64 payload w = (Ok r, w') ->
      status_code r = 200 ->
      acknowledged (of_optional (label payload)) (content r)
  | ack_form lbl img w r w' :
      upload_form lbl img w = (Ok r, w') ->
      status_code r = 200 ->
      acknowledged (of_optional lbl) (content r)
  | ack_text text b lbl image_bytes w w' frame :
      parse_text_frame text = Ok (decoded lbl image_bytes) ->
      websocket_iteration (text_message text b) w = (Ok next_iteration, w') ->
      sent w' = sent w ++ [frame] ->
      acknowledged lbl frame.



(** The world after one more frame was sent, everything else as before. *)
Definition with_sent (frame : pyval) (w : World) : World :=
  mkWorld (clock w) (clock_reads w) (scheduled w) (sent w ++ [frame])
    (files w) (system w).

(** The part of the file name that carries the label. *)
Definition label_suffix (o : option str) : str :=
  match o with
  | Some (String c s) => "_" +:+ String c s
  | _ => ""
  end.

(** The path [save_image] opens at the instant [d] for the label [o]. *)
Definition image_path `{Settings} (d : datetime) (o : option str) : list str :=
  joinpath RECEIVED_IMAGES_DIR (strftime_compact d +:+ label_suffix o +:+ ".jpg").

(** No character of the string is a slash. *)
Definition no_slash (s : str) : bool :=
  all_chars (fun c => negb (Ascii.eqb c "/")) s.

Definition label_no_slash (o : option str) : bool :=
  match o with
  | Some s => no_slash s
  | None => true
  end.

(** The bytes the scan looks at: alphabet characters and padding. *)
Definition scanned (b : Z) : bool :=
  (b =? BASE64_PAD) || (table_a2b_base64 b <? 64).

(** The data characters: alphabet characters only. *)
Definition is_data (b : Z) : bool :=
  negb (b =? BASE64_PAD) && (table_a2b_base64 b <? 64).

Fixpoint count_data (l : bytes) : Z :=
  match l with
  | [] => 0
  | b :: l' => (if is_data b then 1 else 0) + count_data l'
  end.

(** The [k] low decimal digits of [n], written in front of [acc]. *)
Fixpoint fixed_acc (k : nat) (n : Z) (acc : str) : str :=
  match k with
  | O => acc
  | S k' => fixed_acc k' (n / 10) (String (digit_char (n mod 10)) acc)
  end.

(** *** Notions for the WebSocket loop *)

Definition is_disconnect (data : asgi_message) : bool :=
  String.eqb (msg_type data) "websocket.disconnect".

(** The messages that get a frame in reply: a [websocket.receive] with a
    text or with bytes. *)
Definition answered (data : asgi_message) : bool :=
  String.eqb (msg_type data) "websocket.receive"
  && match msg_text data, msg_bytes data with
     | None, None => false
     | _, _ => true
     end.

(** The messages up to the first disconnect, that one left out. *)
Fixpoint until_disconnect (l : list asgi_message) : list asgi_message :=
  match l with
  | [] => []
  | data :: rest => if is_disconnect data then [] else data :: until_disconnect rest
  end.

(** An acknowledgment has a [command]; an error frame has none. *)
Definition is_ack_frame (frame : pyval) : bool :=
  match command_of frame with
  | Some _ => true
  | None => false
  end.

(** [extends w w1 frames tasks]: from [w] to [w1] the frames [frames]
    were sent and the tasks [tasks] scheduled, the clock was read once per
    task, and nothing else changed. *)
Definition extends (w w1 : World) (frames : list pyval) (tasks : list task) : Prop :=
  clock w1 = clock w
  /\ clock_reads w1 = (clock_reads w + length tasks)%nat
  /\ scheduled w1 = scheduled w ++ tasks
  /\ sent w1 = sent w ++ frames
  /\ files w1 = files w
  /\ system w1 = system w.

(** The world with another file system. *)
Definition with_storage (fs : gmap N (list Z)) (sys : System) (w : World) : World :=
  mkWorld (clock w) (clock_reads w) (scheduled w) (sent w) fs sys.

(** The tasks [ts] run one after the other, each from start to end, in
    the order of the list: one of the schedules the event loop may
    follow. *)
Definition run_tasks `{Settings} `{Library} (ts : list task) (w : World) : World :=
  fold_left (fun w t => run_task t w) ts w.

(** *** Standard base64 encoding (RFC 4648), as a client writes the image *)

(** The alphabet character, as an ASCII code, of a value below 64. *)
Definition b64char (v : Z) : Z :=
  if v <? 26 then v + 65
  else if v <? 52 then v + 71
  else if v <? 62 then v - 4
  else if v =? 62 then 43
  else 47.

(** The four values of a group of three bytes. *)
Definition sextet1 (a : Z) : Z := Z.shiftr a 2.
Definition sextet2 (a b : Z) : Z := Z.lor (Z.shiftl (Z.land a 3) 4) (Z.shiftr b 4).
Definition sextet3 (b c : Z) : Z := Z.lor (Z.shiftl (Z.land b 15) 2) (Z.shiftr c 6).
Definition sextet4 (c : Z) : Z := Z.land c 63.

(** The ASCII codes of the encoding: four characters for three bytes, the
    last group filled with zero bits and padded with [=]. *)
Fixpoint b2a_base64 (bs : bytes) : bytes :=
  match bs with
  | a :: b :: c :: rest =>
      b64char (sextet1 a) :: b64char (sextet2 a b) :: b64char (sextet3 b c)
      :: b64char (sextet4 c) :: b2a_base64 rest
  | [a; b] =>
      [b64char (sextet1 a); b64char (sextet2 a b); b64char (sextet3 b 0); BASE64_PAD]
  | [a] =>
      [b64char (sextet1 a); b64char (sextet2 a 0); BASE64_PAD; BASE64_PAD]
  | [] => []
  end.

Definition chr (c : Z) : ascii := ascii_of_N (Z.to_N c).

Fixpoint string_of_codes (l : bytes) : str :=
  match l with
  | [] => EmptyString
  | c :: l' => String (chr c) (string_of_codes l')
  end.

Definition b64encode (bs : bytes) : str := string_of_codes (b2a_base64 bs).

Definition is_byte (b : Z) : Prop := 0 <= b <= 255.

(** The integers from 0 below [n]. *)
Definition upto (n : nat) : list Z := map Z.of_nat (seq 0 n).

(** What the group in progress may still add to the output, in quarters
    of a byte. *)
Definition group_credit (q : Z) : Z := if q =? 0 then 0 else 4 - q.

(** An alphabet character or the pad character, as an ASCII code. *)
Definition is_base64_code (c : Z) : Prop :=
  0 <= c < 128 /\ (c = BASE64_PAD \/ ((c =? BASE64_PAD) = false /\ table_a2b_base64 c < 64)).

(** ** The endpoint on a connection that can fail *)

(** [websocket_endpoint] above is the endpoint on a live connection: every
    [ws.receive()] returns a message and every [ws.send_json] goes through.
    Here each await on the socket may raise, and the two [try] statements of
    the endpoint are as the source has them. *)
Module Socket.

(** The state of the endpoint: the world, and how the coming calls of
    [ws.send_json] turn out, in order: [None] for a send that goes through,
    [Some e] for one that raises [e].  Past the end of the list every send
    goes through. *)
Definition IO (A : Type) : Type :=
  World * list (option exn) -> result A * (World * list (option exn)).

#[export] Instance IO_ret : MRet IO := fun A a s => (Ok a, s).
#[export] Instance IO_bind : MBind IO := fun A B k c s =>
  match c s with
  | (Ok a, s') => k a s'
  | (Raise e, s') => (Raise e, s')
  end.

(** A step that does not touch the socket. *)
Definition lift {A : Type} (c : M A) : IO A := fun s =>
  (fst (c (fst s)), (snd (c (fst s)), snd s)).

Definition raise {A : Type} (e : exn) : IO A := fun s => (Raise e, s).

(** [await ws.send_json(obj)] *)
Definition send_json (obj : pyval) : IO unit := fun s =>
  match snd s with
  | Some e :: outcomes => (Raise e, (fst s, outcomes))
  | None :: outcomes => (Ok tt, (with_sent obj (fst s), outcomes))
  | [] => (Ok tt, (with_sent obj (fst s), []))
  end.

(** [try: body / except Exception: handler] *)
Definition try_except_Exception {A : Type} (body handler : IO A) : IO A := fun s =>
  match body s with
  | (Raise e, s') => if is_Exception e then handler s' else (Raise e, s')
  | (Ok a, s') => (Ok a, s')
  end.

(** How the [try] statement of a text frame (lines 155-175) ends when
    nothing comes out of it: the loop [continue]s, or control goes on
    below it with the label and the bytes. *)
Inductive after_try : Type :=
  | continue
  | below (label : pyval) (image_bytes : bytes).

Section Endpoint.

Context {library : Library}.

Definition text_try (text : str) : IO after_try :=
  try_except_Exception
    (match parse_text_frame text with
     | Raise e => raise e
     | Ok (decoded label image_bytes) => mret (below label image_bytes)
     | Ok not_a_string =>
         send_json (PyDict [("error",
           PyStr "Invalid message format: 'image' must be base64 string")]);;
         mret continue
     end)
    (send_json (PyDict [("error", PyStr "Malformed JSON or base64 decode error")]);;
     mret continue).

(** One iteration of the [while True] loop, on the message [data] that
    [ws.receive()] returned. *)
Definition websocket_iteration (data : asgi_message) : IO loop_control :=
  if String.eqb (msg_type data) "websocket.receive" then
    match msg_text data, msg_bytes data with
    | Some text, _ =>
        r ← text_try text;
        match r with
        | continue => mret next_iteration
        | below label image_bytes =>
            lift (add_task (save_image_call image_bytes label));;
            lift (process_image_bytes image_bytes);;
            let cmd := make_control_command label in
            frame ← lift (ack_envelope cmd);
            send_json frame;;
            mret next_iteration
        end
    | None, Some image_bytes =>
        lift (add_task (save_image_call image_bytes PyNone));;
        lift (process_image_bytes image_bytes);;
        let cmd := make_control_command PyNone in
        frame ← lift (ack_envelope cmd);
        send_json frame;;
        mret next_iteration
    | None, None => mret next_iteration
    end
  else if String.eqb (msg_type data) "websocket.disconnect" then mret leave_loop
  else mret next_iteration.

(** The [while True] loop, on what the successive calls of
    [ws.receive()] give: a message, or an exception. *)
Fixpoint receive_loop (incoming : list (result asgi_message)) : IO endpoint_state :=
  match incoming with
  | [] => mret awaiting_receive
  | Raise e :: _ => raise e
  | Ok data :: rest =>
      ctl ← websocket_iteration data;
      match ctl with
      | next_iteration => receive_loop rest
      | leave_loop => mret returned
      end
  end.

(** The endpoint after [ws.accept()]: the loop inside
    [try: ... except WebSocketDisconnect: pass]. *)
Definition websocket_endpoint (incoming : list (result asgi_message))
  : IO endpoint_state := fun s =>
  match receive_loop incoming s with
  | (Raise WebSocketDisconnect, s') => (Ok returned, s')
  | (r, s') => (r, s')
  end.

End Endpoint.

End Socket.

(** A connection on which the sends listed go through. *)
Definition sends_go_through (outcomes : list (option exn)) : Prop :=
  Forall (fun o => o = None) outcomes.


(** [json.loads] raises nothing but [Exception]s. *)
Definition loads_raises_Exceptions `{Library} : Prop :=
  forall text e, json_loads text = Raise e -> is_Exception e = true.

(** What [except WebSocketDisconnect: pass] makes of an exception that
    comes out of the loop. *)
Definition out_of_endpoint (e : exn) : result endpoint_state :=
  match e with
  | WebSocketDisconnect => Ok returned
  | _ => Raise e
  end.


(** ** Sample settings, library and inputs *)

Module Sample.

Definition dq : str := String (ascii_of_nat 34) EmptyString.

(** The text [{"label": "a", "image": "QUJD"}]. *)
Definition labelled_text : str :=
  "{" +:+ dq +:+ "label" +:+ dq +:+ ": " +:+ dq +:+ "a" +:+ dq +:+ ", "
  +:+ dq +:+ "image" +:+ dq +:+ ": " +:+ dq +:+ "QUJD" +:+ dq +:+ "}".

(** The text [{"image": 123}]. *)
Definition number_text : str :=
  "{" +:+ dq +:+ "image" +:+ dq +:+ ": 123}".

(** The text [{"image": "Q"}]. *)
Definition short_text : str :=
  "{" +:+ dq +:+ "image" +:+ dq +:+ ": " +:+ dq +:+ "Q" +:+ dq +:+ "}".

(** [json.loads] on the texts above; every other text is taken as
    malformed. *)
Definition loads (text : str) : result pyval :=
  if String.eqb text labelled_text
  then Ok (PyDict [("label", PyStr "a"); ("image", PyStr "QUJD")])
  else if String.eqb text number_text
  then Ok (PyDict [("image", PyInt 123)])
  else if String.eqb text short_text
  then Ok (PyDict [("image", PyStr "Q")])
  else Raise JSONDecodeError.

#[export] Instance library : Library :=
  {| json_loads := loads; str_of_object := fun _ => "object" |}.

#[export] Instance storing : Settings :=
  {| STORE_IMAGES := true; RECEIVED_IMAGES_DIR := ["/"; "app"; "received_images"] |}.

#[export] Instance not_storing : Settings :=
  {| STORE_IMAGES := false; RECEIVED_IMAGES_DIR := ["/"; "app"; "received_images"] |}.

Definition noon : datetime := mkDatetime 2024 1 2 12 0 5 0.

(** The number of the file with the name [name] in the storage
    directory: each name has its own. *)
Definition file_named (name : str) : N := Npos (encode name).

(** A system where the storage directory exists and is empty of
    subdirectories: a name directly in it opens, each name its own file,
    unless it has a NUL; any other path does not open. *)
Definition opens (p : list str) : result N :=
  match p with
  | [root; app; dir; name] =>
      if String.eqb root "/" && String.eqb app "app" && String.eqb dir "received_images"
      then if 0 <=? find name (String (ascii_of_nat 0) EmptyString)
           then Raise ValueError
           else Ok (file_named name)
      else Raise OSError
  | _ => Raise OSError
  end.

(** A world with a stopped clock, nothing scheduled or sent, no file,
    and writes that go through. *)
Definition world : World :=
  mkWorld (fun _ => noon) 0 [] [] ∅ (mkSystem opens (fun _ _ => None)).


End Sample.

(** More sample texts: JSON that is not an object, and an object without
    an image. *)
Module Sample2.

(** The text [[1]]. *)
Definition array_text : str := "[1]".

(** The text [{}]. *)
Definition empty_object_text : str := "{}".

Definition loads (text : str) : result pyval :=
  if String.eqb text array_text then Ok (PyList [PyInt 1])
  else if String.eqb text empty_object_text then Ok (PyDict [])
  else Raise JSONDecodeError.

Definition library : Library :=
  {| json_loads := loads; str_of_object := fun _ => "object" |}.

Definition disconnect : asgi_message := mkMessage "websocket.disconnect" None None.

Definition ping : asgi_message := mkMessage "websocket.ping" None None.

End Sample2.

(** ** Properties of the command generator and of the handlers *)

Section ServerProperties.

Context {settings : Settings} {library : Library}.

Lemma make_control_command_cases (label : pyval) :
  make_control_command label =
    if truthy label
    then [("action", PyStr "ACK"); ("labelReceived", label)]
    else [("action", PyStr "ACK")].
Proof. unfold make_control_command. destruct (truthy label); reflexivity. Qed.

Lemma make_control_command_action (label : pyval) :
  dict_lookup (make_control_command label) "action" = Some (PyStr "ACK").
Proof. rewrite make_control_command_cases. destruct (truthy label); reflexivity. Qed.

Lemma make_control_command_label (label : pyval) :
  dict_lookup (make_control_command label) "labelReceived" =
    if truthy label then Some label else None.
Proof. rewrite make_control_command_cases. destruct (truthy label); reflexivity. Qed.

Lemma label_received_ack (label : pyval) (d : datetime) :
  label_received (ack label d) = if truthy label then Some label else None.
Proof. unfold label_received, ack. cbn. apply make_control_command_label. Qed.

Lemma truthy_of_optional (o : option str) :
  truthy (of_optional o) = true <-> exists s, o = Some s /\ s <> "".
Proof.
  destruct o as [[|c s]|]; cbn; split; try discriminate.
  - intros (s & Hs & Hne). inversion Hs. congruence.
  - intros _. exists (String c s). split; [reflexivity | discriminate].
  - intros _. reflexivity.
  - intros (s & Hs & _). discriminate.
Qed.

(** *** What each handler does, by cases on the decoding *)

Lemma upload_base64_rejected payload w e :
  b64decode (strip_data_uri (image payload)) = Raise e ->
  upload_base64 payload w =
    (Ok (mkJSONResponse 400 (PyDict [("error", PyStr "Invalid base64 image")])), w).
Proof. intros Hd. unfold upload_base64. rewrite Hd. reflexivity. Qed.

Lemma upload_base64_decoded payload w image_bytes :
  b64decode (strip_data_uri (image payload)) = Ok image_bytes ->
  upload_base64 payload w =
    (Ok (mkJSONResponse 200 (ack (of_optional (label payload)) (next_now w))),
     acked (save_image_call image_bytes (of_optional (label payload))) w).
Proof. intros Hd. unfold upload_base64. rewrite Hd. reflexivity. Qed.

Lemma upload_form_unreadable lbl img w e :
  read img = Raise e ->
  upload_form lbl img w =
    (Ok (mkJSONResponse 500 (PyDict [("error", PyStr "Failed to read uploaded file")])), w).
Proof. intros Hr. unfold upload_form. rewrite Hr. reflexivity. Qed.

Lemma upload_form_read lbl img w contents :
  read img = Ok contents ->
  upload_form lbl img w =
    (Ok (mkJSONResponse 200 (ack (of_optional lbl) (next_now w))),
     acked (save_image_call contents (of_optional lbl)) w).
Proof. intros Hr. unfold upload_form. rewrite Hr. reflexivity. Qed.

Lemma websocket_text_decoded text b lbl image_bytes w :
  parse_text_frame text = Ok (decoded lbl image_bytes) ->
  websocket_iteration (text_message text b) w =
    (Ok next_iteration,
     acked_on_socket (save_image_call image_bytes lbl) (ack lbl (next_now w)) w).
Proof. intros Hp. unfold websocket_iteration. cbn. rewrite Hp. reflexivity. Qed.

Lemma websocket_text_not_a_string text b w :
  parse_text_frame text = Ok not_a_string ->
  websocket_iteration (text_message text b) w =
    (Ok next_iteration, snd (send_json format_error w)).
Proof. intros Hp. unfold websocket_iteration. cbn. rewrite Hp. reflexivity. Qed.

Lemma websocket_text_raised text b w e :
  parse_text_frame text = Raise e ->
  websocket_iteration (text_message text b) w =
    (Ok next_iteration, snd (send_json malformed_error w)).
Proof. intros Hp. unfold websocket_iteration. cbn. rewrite Hp. reflexivity. Qed.

Lemma websocket_binary image_bytes w :
  websocket_iteration (binary_message image_bytes) w =
    (Ok next_iteration,
     acked_on_socket (save_image_call image_bytes PyNone) (ack PyNone (next_now w)) w).
Proof. reflexivity. Qed.

End ServerProperties.

(** ** The label echoed in the acknowledgment *)

Section LabelReceived.

Context {library : Library}.

Lemma acknowledged_is_ack lbl envelope :
  acknowledged lbl envelope -> exists d, envelope = ack lbl d.
Proof.
  intros [payload w r w' Hrun Hst | o img w r w' Hrun Hst
         | text b l image_bytes w w' frame Hp Hrun Hsent].
  - destruct (b64decode (strip_data_uri (image payload))) as [bs|e] eqn:Hd.
    + rewrite (upload_base64_decoded _ _ _ Hd) in Hrun.
      inversion Hrun; subst. eexists; reflexivity.
    + rewrite (upload_base64_rejected _ _ _ Hd) in Hrun.
      inversion Hrun; subst. discriminate Hst.
  - destruct (read img) as [bs|e] eqn:Hr.
    + rewrite (upload_form_read _ _ _ _ Hr) in Hrun.
      inversion Hrun; subst. eexists; reflexivity.
    + rewrite (upload_form_unreadable _ _ _ _ Hr) in Hrun.
      inversion Hrun; subst. discriminate Hst.
  - rewrite (websocket_text_decoded _ b _ _ w Hp) in Hrun.
    inversion Hrun; subst. cbn in Hsent.
    apply app_inv_head in Hsent. inversion Hsent; subst.
    eexists; reflexivity.
Qed.

(** C1, as the code has it: on every transport that carries a label, the
    acknowledgment command has the field [labelReceived] exactly when the
    label is true in the sense of [if label:] (for a string: not null and
    not empty), the value is then the label itself, and otherwise the key
    is absent from the command. *)
Theorem label_received_iff_label_truthy (lbl envelope : pyval) :
  acknowledged lbl envelope ->
  label_received envelope = (if truthy lbl then Some lbl else None)
  /\ (forall cmd, command_of envelope = Some cmd ->
        cmd = if truthy lbl
              then [("action", PyStr "ACK"); ("labelReceived", lbl)]
              else [("action", PyStr "ACK")]).
Proof.
  intros Hack. destruct (acknowledged_is_ack _ _ Hack) as [d ->]. split.
  - apply label_received_ack.
  - intros cmd Hcmd. cbn in Hcmd. inversion Hcmd.
    apply make_control_command_cases.
Qed.

End LabelReceived.

(** The label of a JSON or multipart request is echoed exactly when it is
    a non-empty string. *)
Lemma optional_label_echoed (o : option str) :
  (if truthy (of_optional o) then Some (of_optional o) else None) =
    match o with
    | Some (String c s) => Some (PyStr (String c s))
    | _ => None
    end.
Proof. destruct o as [[|c s]|]; reflexivity. Qed.

(** ** Rejected uploads *)

(** C2: a JSON POST whose image string does not decode gets status 400
    with the body [{"error": "Invalid base64 image"}]; the handler leaves
    the world as it found it: no task is scheduled, so [save_image] is not
    run for the request whatever the storage flag, and the clock that would
    stamp a command is not even read. *)
Theorem undecodable_upload_is_rejected (payload : Base64Upload) (w : World) (e : exn) :
  b64decode (strip_data_uri (image payload)) = Raise e ->
  exists r w',
    upload_base64 payload w = (Ok r, w')
    /\ status_code r = 400
    /\ content r = PyDict [("error", PyStr "Invalid base64 image")]
    /\ command_of (content r) = None
    /\ w' = w
    /\ scheduled w' = scheduled w
    /\ (forall (settings : Settings) (library : Library),
          fold_left (fun w t => run_task t w)
            (drop (length (scheduled w)) (scheduled w')) w' = w).
Proof.
  intros Hd. rewrite (upload_base64_rejected _ _ _ Hd).
  eexists _, _. split; [reflexivity|].
  repeat split. intros ? ?. rewrite drop_all. reflexivity.
Qed.

Example spec_malformed_base64 (w : World) :
  upload_base64 (mkBase64Upload None "not-base64-@@@") w =
    (Ok (mkJSONResponse 400 (PyDict [("error", PyStr "Invalid base64 image")])), w).
Proof. reflexivity. Qed.

(** ** Binary frames *)

(** C6: on a binary frame the payload itself is the image handed to
    [save_image], with no label, and the reply is an acknowledgment whose
    command is [{"action": "ACK"}], without [labelReceived]; the loop goes
    on. *)
Theorem binary_frame_acknowledged_without_label
    {library : Library} (image_bytes : bytes) (w : World) :
  exists frame w',
    websocket_iteration (binary_message image_bytes) w = (Ok next_iteration, w')
    /\ sent w' = sent w ++ [frame]
    /\ scheduled w' = scheduled w ++ [save_image_call image_bytes PyNone]
    /\ frame = PyDict [("command", PyDict [("action", PyStr "ACK")]);
                       ("commandSentAt", PyStr (isoformat (next_now w)))]
    /\ label_received frame = None.
Proof.
  rewrite websocket_binary. eexists _, _. split; [reflexivity|].
  repeat split.
Qed.

(** ** The processing hook *)

(** C8: the hook returns nothing, never raises, and leaves the world as
    it is, for every input; running it before any continuation of a handler
    is the same as running the continuation alone. *)
Theorem process_image_bytes_is_a_noop (image_bytes : bytes) :
  (forall w, process_image_bytes image_bytes w = (Ok tt, w))
  /\ (forall (A : Type) (k : M A) (w : World),
        (process_image_bytes image_bytes;; k) w = k w).
Proof. split; reflexivity. Qed.

(** ** The data URI prefix *)

Lemma find_char_absent (c : ascii) (s : str) (i : Z) :
  ~ In c (list_ascii_of_string s) -> find_from i s (String c "") = -1.
Proof.
  revert i. induction s as [|a s IH]; intros i Hin; cbn.
  - reflexivity.
  - destruct (ascii_dec c a) as [->|Hne].
    + exfalso. apply Hin. cbn. left. reflexivity.
    + apply IH. intros Hs. apply Hin. cbn. right. exact Hs.
Qed.

Lemma strip_data_uri_plain (s : str) :
  startswith s "data:" = false -> strip_data_uri s = s.
Proof. intros Hs. unfold strip_data_uri. rewrite Hs. reflexivity. Qed.

Lemma strip_data_uri_no_comma (s : str) :
  find s "," = -1 -> strip_data_uri s = s.
Proof.
  intros Hf. unfold strip_data_uri. rewrite Hf.
  destruct (startswith s "data:"); reflexivity.
Qed.

Lemma prefix_empty (s : str) : String.prefix "" s = true.
Proof. destruct s; reflexivity. Qed.

Lemma find_char_cons (c a : ascii) (s : str) (i : Z) :
  find_from i (String a s) (String c "") =
    if Ascii.eqb c a then i else find_from (i + 1) s (String c "").
Proof.
  cbn. destruct (ascii_dec c a) as [->|Hne].
  - rewrite prefix_empty, Ascii.eqb_refl. reflexivity.
  - apply Ascii.eqb_neq in Hne. rewrite Hne. reflexivity.
Qed.

Lemma strip_data_uri_jpeg (P : str) :
  strip_data_uri ("data:image/jpeg;base64," +:+ P) = P.
Proof.
  unfold strip_data_uri.
  change (startswith ("data:image/jpeg;base64," +:+ P) "data:") with true.
  assert (find ("data:image/jpeg;base64," +:+ P) "," = 22) as ->.
  { unfold find. cbv [String.append]. rewrite !find_char_cons. reflexivity. }
  reflexivity.
Qed.

Lemma strip_data_uri_changes (s : str) :
  strip_data_uri s <> s ->
  startswith s "data:" = true /\ In ","%char (list_ascii_of_string s).
Proof.
  intros Hne. split.
  - destruct (startswith s "data:") eqn:Hs; [reflexivity|].
    exfalso. apply Hne. apply strip_data_uri_plain. exact Hs.
  - destruct (in_dec ascii_dec ","%char (list_ascii_of_string s)) as [Hin|Hnin].
    + exact Hin.
    + exfalso. apply Hne. apply strip_data_uri_no_comma.
      apply find_char_absent. exact Hnin.
Qed.

Lemma prefix_cons (a b : ascii) (s1 s2 : str) :
  String.prefix (String a s1) (String b s2) = Ascii.eqb a b && String.prefix s1 s2.
Proof.
  cbn [String.prefix]. destruct (ascii_dec a b) as [->|Hne].
  - rewrite Ascii.eqb_refl. reflexivity.
  - apply Ascii.eqb_neq in Hne. rewrite Hne. reflexivity.
Qed.

Lemma startswith_data (s : str) :
  startswith s "data:" = true -> exists r, s = "data:" +:+ r.
Proof.
  unfold startswith. intros Hp.
  destruct s as [|a [|b [|c [|d [|e r]]]]];
    rewrite ?prefix_cons in Hp; cbn [String.prefix] in Hp;
    rewrite ?andb_false_r in Hp; try discriminate Hp.
  repeat (apply andb_prop in Hp; destruct Hp as [?He Hp]).
  repeat match goal with
         | E : Ascii.eqb _ _ = true |- _ => apply Ascii.eqb_eq in E; subst
         end.
  exists r. reflexivity.
Qed.

Lemma base64_text_not_data_uri (P : str) :
  base64_text P = true -> startswith P "data:" = false.
Proof.
  intros Hb. destruct (startswith P "data:") eqn:Hp; [|reflexivity].
  destruct (startswith_data _ Hp) as [r ->].
  vm_compute in Hb. discriminate Hb.
Qed.

Section DataUri.

Context {library : Library}.

Lemma parse_text_frame_image text d s :
  json_loads text = Ok (PyDict d) ->
  dict_lookup d "image" = Some (PyStr s) ->
  parse_text_frame text =
    rbind (b64decode (strip_data_uri s)) (fun image_bytes =>
      Ok (decoded (default PyNone (dict_lookup d "label")) image_bytes)).
Proof.
  intros Hj Hi. unfold parse_text_frame. rewrite Hj. cbn. rewrite Hi. reflexivity.
Qed.

(** C4: for a base64 payload [P], the string
    ["data:image/jpeg;base64," ++ P] and the string [P] are stripped to the
    same string, decode alike (to the same bytes, or both not at all), and
    get the same answer from the JSON endpoint and from the WebSocket
    endpoint, with any label. *)
Theorem data_uri_prefix_is_a_syntactic_strip (P : str) :
  base64_text P = true ->
  let uri := "data:image/jpeg;base64," +:+ P in
  strip_data_uri uri = P
  /\ strip_data_uri P = P
  /\ b64decode (strip_data_uri uri) = b64decode (strip_data_uri P)
  /\ (forall lbl w,
        upload_base64 (mkBase64Upload lbl uri) w =
        upload_base64 (mkBase64Upload lbl P) w)
  /\ (forall text text' d d' b w,
        json_loads text = Ok (PyDict d) ->
        json_loads text' = Ok (PyDict d') ->
        dict_lookup d "label" = dict_lookup d' "label" ->
        dict_lookup d "image" = Some (PyStr uri) ->
        dict_lookup d' "image" = Some (PyStr P) ->
        websocket_iteration (text_message text b) w =
        websocket_iteration (text_message text' b) w).
Proof.
  intros Hb uri.
  assert (Huri : strip_data_uri uri = P) by apply strip_data_uri_jpeg.
  assert (HP : strip_data_uri P = P)
    by (apply strip_data_uri_plain, base64_text_not_data_uri, Hb).
  split_and!.
  - exact Huri.
  - exact HP.
  - rewrite Huri, HP. reflexivity.
  - intros lbl w. unfold upload_base64. cbn [image label].
    rewrite Huri, HP. reflexivity.
  - intros text text' d d' b w Hj Hj' Hl Hi Hi'.
    unfold websocket_iteration. cbn.
    rewrite (parse_text_frame_image _ _ _ Hj Hi).
    rewrite (parse_text_frame_image _ _ _ Hj' Hi').
    rewrite Huri, HP, Hl. reflexivity.
Qed.

(** C10: an image string that begins with [data:] and has no comma is
    not stripped: the whole string, header included, is what both
    endpoints give to the decoder.  A string is changed by the stripping
    only if it begins with [data:] and has a comma. *)
Theorem data_header_without_comma_is_kept (s : str) :
  startswith s "data:" = true ->
  ~ In ","%char (list_ascii_of_string s) ->
  find s "," = -1
  /\ strip_data_uri s = s
  /\ (forall lbl w,
        upload_base64 (mkBase64Upload lbl s) w =
        match b64decode s with
        | Raise _ =>
            (Ok (mkJSONResponse 400 (PyDict [("error", PyStr "Invalid base64 image")])), w)
        | Ok image_bytes =>
            (Ok (mkJSONResponse 200 (ack (of_optional lbl) (next_now w))),
             acked (save_image_call image_bytes (of_optional lbl)) w)
        end)
  /\ (forall text d,
        json_loads text = Ok (PyDict d) ->
        dict_lookup d "image" = Some (PyStr s) ->
        parse_text_frame text =
          rbind (b64decode s) (fun image_bytes =>
            Ok (decoded (default PyNone (dict_lookup d "label")) image_bytes)))
  /\ (forall s' : str,
        strip_data_uri s' <> s' ->
        startswith s' "data:" = true /\ In ","%char (list_ascii_of_string s')).
Proof.
  intros _ Hnc.
  assert (Hf : find s "," = -1) by (apply find_char_absent, Hnc).
  assert (Hs : strip_data_uri s = s) by (apply strip_data_uri_no_comma, Hf).
  split_and!.
  - exact Hf.
  - exact Hs.
  - intros lbl w. unfold upload_base64. cbn [image label]. rewrite Hs.
    destruct (b64decode s); reflexivity.
  - intros text d Hj Hi. rewrite (parse_text_frame_image _ _ _ Hj Hi), Hs.
    reflexivity.
  - apply strip_data_uri_changes.
Qed.

End DataUri.

(** ** Timestamps *)

Section Numerals.


Lemma pow10_succ (k : nat) : 10 ^ Z.of_nat (S k) = 10 * 10 ^ Z.of_nat k.
Proof. rewrite Nat2Z.inj_succ, Z.pow_succ_r by lia. reflexivity. Qed.

Lemma digit_char_spec (x : Z) :
  0 <= x <= 9 -> is_digit (digit_char x) = true /\ ord (digit_char x) = 48 + x.
Proof.
  intros Hx.
  assert (Hc : x = 0 \/ x = 1 \/ x = 2 \/ x = 3 \/ x = 4 \/ x = 5 \/ x = 6
               \/ x = 7 \/ x = 8 \/ x = 9) by lia.
  repeat (destruct Hc as [->|Hc]; [split; reflexivity|]).
  subst x. split; reflexivity.
Qed.

Lemma zeros_shift (k : nat) (s : str) :
  zeros k (String "0"%char s) = String "0"%char (zeros k s).
Proof. induction k as [|k IH]; cbn; [reflexivity | rewrite IH; reflexivity]. Qed.

Lemma fixed_acc_zero (k : nat) (acc : str) : fixed_acc k 0 acc = zeros k acc.
Proof.
  revert acc. induction k as [|k IH]; intros acc; cbn; [reflexivity|].
  change (0 / 10) with 0. change (digit_char (0 mod 10)) with "0"%char.
  rewrite IH. apply zeros_shift.
Qed.

Lemma fixed_acc_wider (k m : nat) (n : Z) (acc : str) :
  0 <= n < 10 ^ Z.of_nat m ->
  fixed_acc (k + m) n acc = zeros k (fixed_acc m n acc).
Proof.
  revert n acc. induction m as [|m IH]; intros n acc Hn.
  - change (10 ^ Z.of_nat 0) with 1 in Hn. assert (n = 0) as -> by lia.
    rewrite Nat.add_0_r. apply fixed_acc_zero.
  - rewrite Nat.add_succ_r. cbn [fixed_acc]. apply IH.
    rewrite pow10_succ in Hn. split.
    + apply Z.div_pos; lia.
    + apply Z.div_lt_upper_bound; lia.
Qed.

Lemma fixed_acc_length (k : nat) (n : Z) (acc : str) :
  String.length (fixed_acc k n acc) = (k + String.length acc)%nat.
Proof.
  revert n acc. induction k as [|k IH]; intros n acc; cbn [fixed_acc].
  - reflexivity.
  - rewrite IH. cbn. lia.
Qed.

Lemma fixed_acc_app (k : nat) (n : Z) (s1 s2 : str) :
  fixed_acc k n (s1 +:+ s2) = fixed_acc k n s1 +:+ s2.
Proof.
  revert n s1. induction k as [|k IH]; intros n s1; cbn [fixed_acc].
  - reflexivity.
  - rewrite <- IH. reflexivity.
Qed.

(** With enough fuel, [decimal_acc] writes the shortest numeral. *)
Lemma decimal_acc_fixed (fuel : nat) (n : Z) (acc : str) :
  (1 <= fuel)%nat -> 0 <= n < 2 ^ Z.of_nat fuel ->
  exists m : nat,
    (1 <= m)%nat
    /\ decimal_acc fuel n acc = fixed_acc m n acc
    /\ n < 10 ^ Z.of_nat m
    /\ (m = 1%nat \/ 10 ^ Z.of_nat (m - 1) <= n).
Proof.
  revert n acc. induction fuel as [|fuel IH]; intros n acc Hf Hn; [lia|].
  cbn [decimal_acc]. destruct (n / 10 =? 0) eqn:Hq.
  - apply Z.eqb_eq in Hq. exists 1%nat. split_and!.
    + lia.
    + reflexivity.
    + change (10 ^ Z.of_nat 1) with 10.
      pose proof (Z.div_mod n 10). pose proof (Z.mod_pos_bound n 10). lia.
    + left. reflexivity.
  - apply Z.eqb_neq in Hq.
    assert (Hq1 : 1 <= n / 10).
    { assert (0 <= n / 10) by (apply Z.div_pos; lia). lia. }
    assert (Hn10 : 10 <= n).
    { pose proof (Z.div_mod n 10). pose proof (Z.mod_pos_bound n 10). lia. }
    assert (Hpow : 2 ^ Z.of_nat (S fuel) = 2 * 2 ^ Z.of_nat fuel).
    { rewrite Nat2Z.inj_succ, Z.pow_succ_r by lia. reflexivity. }
    assert (Hfuel : (1 <= fuel)%nat).
    { destruct fuel; [|lia]. change (2 ^ Z.of_nat 1) with 2 in Hn. lia. }
    assert (Hdiv : 0 <= n / 10 < 2 ^ Z.of_nat fuel).
    { split; [lia|]. apply Z.div_lt_upper_bound; lia. }
    destruct (IH (n / 10) (String (digit_char (n mod 10)) acc) Hfuel Hdiv)
      as (m & Hm & Heq & Hlt & Hge).
    exists (S m). split_and!.
    + lia.
    + rewrite Heq. reflexivity.
    + rewrite pow10_succ.
      pose proof (Z.div_mod n 10). pose proof (Z.mod_pos_bound n 10). lia.
    + right. replace (S m - 1)%nat with m by lia.
      destruct Hge as [->|Hge].
      * change (10 ^ Z.of_nat 1) with 10. lia.
      * replace m with (S (m - 1)) at 1 by lia. rewrite pow10_succ.
        pose proof (Z.div_mod n 10). pose proof (Z.mod_pos_bound n 10). lia.
Qed.

Lemma decimal_fixed (n : Z) :
  0 <= n ->
  exists m : nat,
    (1 <= m)%nat /\ decimal n = fixed_acc m n ""
    /\ n < 10 ^ Z.of_nat m /\ (m = 1%nat \/ 10 ^ Z.of_nat (m - 1) <= n).
Proof.
  intros Hn. apply decimal_acc_fixed; [lia|].
  rewrite Nat2Z.inj_succ, Z2Nat.id by apply Z.log2_nonneg.
  split; [exact Hn|].
  destruct (Z.eq_dec n 0) as [->|Hne]; [reflexivity|].
  apply Z.log2_spec. lia.
Qed.

(** Within its width, ["%0wd"] writes exactly [w] digits. *)
Lemma fmt_0d_fixed (w : nat) (n : Z) :
  (1 <= w)%nat -> 0 <= n < 10 ^ Z.of_nat w -> fmt_0d w n = fixed_acc w n "".
Proof.
  intros Hw [Hn Hlt]. destruct (decimal_fixed n Hn) as (m & Hm & Heq & Hltm & Hge).
  unfold fmt_0d. rewrite Heq, fixed_acc_length. cbn [String.length].
  assert (Hmw : (m <= w)%nat).
  { destruct Hge as [->|Hge]; [exact Hw|].
    destruct (Nat.le_gt_cases m w) as [Hle|Hgt]; [exact Hle|].
    exfalso.
    assert (10 ^ Z.of_nat w <= 10 ^ Z.of_nat (m - 1))
      by (apply Z.pow_le_mono_r; lia).
    lia. }
  rewrite Nat.add_0_r.
  rewrite <- fixed_acc_wider by lia.
  replace (w - m + m)%nat with w by lia. reflexivity.
Qed.

Lemma read_digits_add (j k : nat) (s : str) (a : Z) :
  read_digits (j + k) s a =
    match read_digits j s a with
    | Some (v, r) => read_digits k r v
    | None => None
    end.
Proof.
  revert s a. induction j as [|j IH]; intros s a; cbn [read_digits Nat.add].
  - reflexivity.
  - destruct s as [|c s]; [reflexivity|].
    destruct (is_digit c); [apply IH | reflexivity].
Qed.

Lemma read_digits_fixed (k : nat) (n : Z) (r : str) (a : Z) :
  0 <= n < 10 ^ Z.of_nat k ->
  read_digits k (fixed_acc k n r) a = Some (a * 10 ^ Z.of_nat k + n, r).
Proof.
  revert n r. induction k as [|k IH]; intros n r Hn.
  - change (10 ^ Z.of_nat 0) with 1 in *. cbn. do 2 f_equal. lia.
  - rewrite pow10_succ in Hn.
    assert (Hq : 0 <= n / 10 < 10 ^ Z.of_nat k).
    { split; [apply Z.div_pos; lia | apply Z.div_lt_upper_bound; lia]. }
    pose proof (Z.mod_pos_bound n 10 ltac:(lia)) as Hm.
    destruct (digit_char_spec (n mod 10) ltac:(lia)) as [Hd Ho].
    cbn [fixed_acc]. replace (S k) with (k + 1)%nat by lia.
    rewrite read_digits_add, IH by exact Hq.
    cbn [read_digits]. rewrite Hd, Ho.
    replace (Z.of_nat (k + 1)) with (Z.succ (Z.of_nat k)) by lia.
    rewrite Z.pow_succ_r by lia.
    pose proof (Z.div_mod n 10 ltac:(lia)). do 2 f_equal. lia.
Qed.

(** Reading back a field written by ["%0wd"]. *)
Lemma read_digits_fmt (w : nat) (n : Z) (r : str) (a : Z) :
  (1 <= w)%nat -> 0 <= n < 10 ^ Z.of_nat w ->
  read_digits w (fmt_0d w n +:+ r) a = Some (a * 10 ^ Z.of_nat w + n, r).
Proof.
  intros Hw Hn. rewrite fmt_0d_fixed by assumption.
  rewrite <- fixed_acc_app. apply read_digits_fixed. exact Hn.
Qed.

End Numerals.

Section Timestamps.

Lemma read_char_app (c : ascii) (r : str) :
  read_char c (String c "" +:+ r) = Some r.
Proof.
  change (String c "" +:+ r) with (String c r). unfold read_char.
  rewrite Ascii.eqb_refl. reflexivity.
Qed.

Lemma read_fmt2 (n : Z) (r : str) (a : Z) :
  0 <= n <= 99 -> read_digits 2 (fmt_0d 2 n +:+ r) a = Some (a * 100 + n, r).
Proof.
  intros Hn. apply (read_digits_fmt 2 n r a); [lia|].
  change (10 ^ Z.of_nat 2) with 100. lia.
Qed.

Lemma read_fmt4 (n : Z) (r : str) (a : Z) :
  0 <= n <= 9999 -> read_digits 4 (fmt_0d 4 n +:+ r) a = Some (a * 10000 + n, r).
Proof.
  intros Hn. apply (read_digits_fmt 4 n r a); [lia|].
  change (10 ^ Z.of_nat 4) with 10000. lia.
Qed.

Lemma read_fmt6 (n : Z) (r : str) (a : Z) :
  0 <= n <= 999999 -> read_digits 6 (fmt_0d 6 n +:+ r) a = Some (a * 1000000 + n, r).
Proof.
  intros Hn. apply (read_digits_fmt 6 n r a); [lia|].
  change (10 ^ Z.of_nat 6) with 1000000. lia.
Qed.

Lemma in_range_true (lo hi n : Z) : lo <= n <= hi -> in_range lo hi n = true.
Proof. intros Hn. unfold in_range. apply andb_true_intro. split; apply Z.leb_le; lia. Qed.

(** The fraction and the offset that end [isoformat]. *)
Lemma read_fraction (us : Z) :
  0 <= us <= 999999 ->
  match read_char "." ((if us =? 0 then "" else "." +:+ fmt_0d 6 us) +:+ "+00:00") with
  | Some s' => read_digits 6 s' 0
  | None => Some (0, (if us =? 0 then "" else "." +:+ fmt_0d 6 us) +:+ "+00:00")
  end = Some (us, "+00:00").
Proof.
  intros Hus. destruct (us =? 0) eqn:Hz.
  - apply Z.eqb_eq in Hz. subst us. reflexivity.
  - change (("." +:+ fmt_0d 6 us) +:+ "+00:00")
      with ("." +:+ (fmt_0d 6 us +:+ "+00:00")).
    rewrite read_char_app, read_fmt6 by exact Hus. reflexivity.
Qed.

(** [isoformat] writes a well-formed ISO 8601 string in UTC, and the
    string denotes the instant it was written from. *)
Lemma parse_isoformat (d : datetime) :
  datetime_ok d -> parse_iso8601_utc (isoformat d) = Some d.
Proof.
  destruct d as [y mo dd h mi se us]. unfold datetime_ok. cbn [year month day hour minute second microsecond].
  intros (Hy & Hmo & Hd & Hh & Hmi & Hse & Hus).
  unfold parse_iso8601_utc, isoformat.
  cbn [year month day hour minute second microsecond].
  rewrite read_fmt4 by lia. cbn [mbind option_bind]. rewrite read_char_app. cbn [mbind option_bind].
  rewrite read_fmt2 by lia. cbn [mbind option_bind]. rewrite read_char_app. cbn [mbind option_bind].
  rewrite read_fmt2 by lia. cbn [mbind option_bind]. rewrite read_char_app. cbn [mbind option_bind].
  rewrite read_fmt2 by lia. cbn [mbind option_bind]. rewrite read_char_app. cbn [mbind option_bind].
  rewrite read_fmt2 by lia. cbn [mbind option_bind]. rewrite read_char_app. cbn [mbind option_bind].
  rewrite read_fmt2 by lia. cbn [mbind option_bind].
  rewrite read_fraction by lia. cbn [mbind option_bind].
  change (String.eqb "+00:00" "Z" || String.eqb "+00:00" "+00:00") with true.
  rewrite !in_range_true by lia. reflexivity.
Qed.

Lemma isoformat_well_formed (d : datetime) :
  datetime_ok d -> iso8601_utc_well_formed (isoformat d) = true.
Proof.
  intros Hd. unfold iso8601_utc_well_formed. rewrite (parse_isoformat d Hd).
  apply bool_decide_eq_true. eexists; reflexivity.
Qed.

(** [strftime("%Y%m%dT%H%M%SZ")] writes eight digits, [T], six digits
    and [Z]. *)
Lemma strftime_compact_shape (d : datetime) :
  datetime_ok d -> 1000 <= year d ->
  compact_timestamp_shape (strftime_compact d) = true.
Proof.
  destruct d as [y mo dd h mi se us]. unfold datetime_ok.
  cbn [year month day hour minute second microsecond].
  intros (Hy & Hmo & Hd & Hh & Hmi & Hse & Hus) _.
  unfold compact_timestamp_shape, strftime_compact.
  cbn [year month day hour minute second microsecond].
  rewrite (read_digits_add 4 4), read_fmt4 by lia. cbv beta iota.
  rewrite (read_digits_add 2 2), read_fmt2 by lia. cbv beta iota.
  rewrite read_fmt2 by lia. rewrite read_char_app.
  rewrite (read_digits_add 2 4), read_fmt2 by lia. cbv beta iota.
  rewrite (read_digits_add 2 2), read_fmt2 by lia. cbv beta iota.
  rewrite read_fmt2 by lia. reflexivity.
Qed.

End Timestamps.

(** ** Errors on the WebSocket *)


Section WebSocketErrors.

Context {library : Library}.




End WebSocketErrors.


(** ** The persistence sink *)

Lemma length_append (a b : str) :
  String.length (a +:+ b) = (String.length a + String.length b)%nat.
Proof.
  induction a as [|c a IH]; [reflexivity|].
  change (String c a +:+ b) with (String c (a +:+ b)). cbn [String.length].
  rewrite IH. reflexivity.
Qed.

Lemma all_chars_append (p : ascii -> bool) (a b : str) :
  all_chars p (a +:+ b) = all_chars p a && all_chars p b.
Proof.
  induction a as [|c a IH]; [reflexivity|].
  change (String c a +:+ b) with (String c (a +:+ b)). cbn [all_chars].
  rewrite IH, andb_assoc. reflexivity.
Qed.

Lemma is_digit_not_slash (c : ascii) :
  is_digit c = true -> negb (Ascii.eqb c "/") = true.
Proof.
  intros Hd. apply negb_true_iff, Ascii.eqb_neq. intros ->.
  vm_compute in Hd. discriminate Hd.
Qed.

Lemma read_digits_no_slash (k : nat) (s r : str) (a v : Z) :
  read_digits k s a = Some (v, r) -> no_slash s = no_slash r.
Proof.
  revert s a. induction k as [|k IH]; intros s a Hr; cbn [read_digits] in Hr.
  - inversion Hr. reflexivity.
  - destruct s as [|c s]; [discriminate Hr|].
    destruct (is_digit c) eqn:Hd; [|discriminate Hr].
    unfold no_slash. cbn [all_chars]. rewrite (is_digit_not_slash c Hd).
    exact (IH _ _ Hr).
Qed.

(** A compact timestamp has no slash and is not empty. *)
Lemma compact_timestamp_no_slash (s : str) :
  compact_timestamp_shape s = true -> no_slash s = true.
Proof.
  unfold compact_timestamp_shape. intros Hs.
  destruct (read_digits 8 s 0) as [[v1 r1]|] eqn:H8; [|discriminate Hs].
  rewrite (read_digits_no_slash _ _ _ _ _ H8).
  destruct r1 as [|c r2]; [discriminate Hs|]. cbn [read_char] in Hs.
  destruct (Ascii.eqb "T" c) eqn:Hc; [|discriminate Hs].
  apply Ascii.eqb_eq in Hc. subst c.
  destruct (read_digits 6 r2 0) as [[v2 r3]|] eqn:H6; [|discriminate Hs].
  unfold no_slash at 1. cbn [all_chars]. fold (no_slash r2).
  rewrite (read_digits_no_slash _ _ _ _ _ H6).
  apply String.eqb_eq in Hs. subst r3. reflexivity.
Qed.

Lemma split_slash_no_slash (s : str) : no_slash s = true -> split_slash s = [s].
Proof.
  unfold no_slash. induction s as [|c s IH]; cbn [all_chars split_slash]; intros Hs.
  - reflexivity.
  - apply andb_prop in Hs as [Hc Hrest]. apply negb_true_iff in Hc.
    rewrite Hc, (IH Hrest). reflexivity.
Qed.

Lemma startswith_slash (s : str) : no_slash s = true -> startswith s "/" = false.
Proof.
  unfold no_slash, startswith. destruct s as [|c s]; [reflexivity|].
  cbn [all_chars]. intros Hs. apply andb_prop in Hs as [Hc _].
  apply negb_true_iff in Hc. rewrite prefix_cons.
  rewrite Ascii.eqb_sym, Hc. reflexivity.
Qed.

(** A name without a slash, longer than one character, is one part. *)
Lemma joinpath_name (dir : list str) (name : str) :
  no_slash name = true -> (2 <= String.length name)%nat ->
  joinpath dir name = dir ++ [name].
Proof.
  intros Hs Hlen. unfold joinpath, path_parts.
  rewrite (startswith_slash name Hs), (split_slash_no_slash name Hs).
  cbn [List.filter].
  destruct name as [|c [|c' name]]; cbn [String.length] in Hlen; try lia.
  cbn [String.eqb]. destruct (Ascii.eqb c "."); reflexivity.
Qed.

Lemma label_suffix_no_slash (o : option str) :
  label_no_slash o = true -> no_slash (label_suffix o) = true.
Proof.
  destruct o as [[|c s]|]; try reflexivity. cbn [label_no_slash label_suffix].
  intros Hs. unfold no_slash in *.
  change ("_" +:+ String c s) with (String "_"%char (String c s)).
  cbn [all_chars] in *. exact Hs.
Qed.

Section Persistence.

Context {settings : Settings} {library : Library}.

Lemma save_image_disabled image_bytes lbl w :
  STORE_IMAGES = false -> save_image image_bytes lbl w = (Ok tt, w).
Proof. intros Hs. unfold save_image. rewrite Hs. reflexivity. Qed.

Lemma save_image_suffix (o : option str) :
  (if truthy (of_optional o) then "_" +:+ format_field (of_optional o) else "")
  = label_suffix o.
Proof. destruct o as [[|c s]|]; reflexivity. Qed.

Lemma save_image_enabled image_bytes (o : option str) w :
  STORE_IMAGES = true ->
  save_image image_bytes (of_optional o) w =
    (f ← open_wb (image_path (next_now w) o); file_write f image_bytes)
      (mkWorld (clock w) (S (clock_reads w)) (scheduled w) (sent w)
         (files w) (system w)).
Proof.
  intros Hs. unfold save_image. rewrite Hs. cbn [negb].
  unfold mbind at 1. unfold M_bind at 1. cbn [now_utc].
  rewrite save_image_suffix. reflexivity.
Qed.

(** What a save does to the world when storage is on, by cases on how
    opening and writing turn out. *)
Lemma save_image_cases image_bytes (o : option str) w :
  STORE_IMAGES = true ->
  save_image image_bytes (of_optional o) w =
    let w1 := mkWorld (clock w) (S (clock_reads w)) (scheduled w) (sent w)
                (files w) (system w) in
    match opening (system w) (image_path (next_now w) o) with
    | Raise e => (Raise e, w1)
    | Ok f =>
        match write_fault (system w) f image_bytes with
        | None => (Ok tt, set_files (<[f := image_bytes]> (files w)) w1)
        | Some (e, rest) => (Raise e, set_files (<[f := rest]> (files w)) w1)
        end
    end.
Proof.
  intros Hs. rewrite (save_image_enabled _ _ _ Hs).
  unfold mbind, M_bind, open_wb. cbn [system].
  destruct (opening (system w) (image_path (next_now w) o)) as [f|e]; [|reflexivity].
  unfold file_write. cbn [system files set_files].
  destruct (write_fault (system w) f image_bytes) as [[e rest]|].
  - unfold set_files. cbn. rewrite insert_insert_eq. reflexivity.
  - unfold set_files. cbn. rewrite lookup_insert_eq. cbn [default app].
    rewrite insert_insert_eq. reflexivity.
Qed.

Lemma image_path_name (d : datetime) (o : option str) :
  datetime_ok d -> 1000 <= year d -> label_no_slash o = true ->
  image_path d o =
    RECEIVED_IMAGES_DIR ++ [strftime_compact d +:+ label_suffix o +:+ ".jpg"].
Proof.
  intros Hd Hy Ho. unfold image_path. apply joinpath_name.
  - unfold no_slash. rewrite !all_chars_append.
    fold (no_slash (strftime_compact d)). fold (no_slash (label_suffix o)).
    rewrite (compact_timestamp_no_slash _ (strftime_compact_shape d Hd Hy)).
    rewrite (label_suffix_no_slash o Ho). reflexivity.
  - rewrite !length_append. cbn [String.length]. lia.
Qed.


End Persistence.

(** ** The lenient decoder *)

Section Decoder.


Lemma a2b_scan_skip b rest q lc p out :
  scanned b = false ->
  a2b_scan (b :: rest) q lc p out = a2b_scan rest q lc p out.
Proof.
  unfold scanned. intros Hs. apply orb_false_elim in Hs as [Hp Ht].
  cbn [a2b_scan]. rewrite Hp.
  apply Z.ltb_ge in Ht. apply Z.leb_le in Ht. rewrite Ht. reflexivity.
Qed.

(** Bytes outside the alphabet do not change the scan. *)
Lemma a2b_scan_filter l q lc p out :
  a2b_scan (List.filter scanned l) q lc p out = a2b_scan l q lc p out.
Proof.
  revert q lc p out. induction l as [|b l IH]; intros q lc p out.
  - reflexivity.
  - cbn [List.filter]. destruct (scanned b) eqn:Hs.
    + cbn [a2b_scan].
      repeat match goal with
             | |- context [if ?c then _ else _] => destruct c
             end; try reflexivity; apply IH.
    + rewrite a2b_scan_skip by exact Hs. apply IH.
Qed.

(** The scan fails only at the end of the input, in the middle of a
    group of four data characters. *)
Lemma a2b_scan_raise l q lc p out e :
  0 <= q < 4 ->
  a2b_scan l q lc p out = Raise e ->
  e = binascii_Error /\ (q + count_data l) mod 4 <> 0.
Proof.
  revert q lc p out. induction l as [|b l IH]; intros q lc p out Hq Hr.
  - cbn in Hr. destruct (q =? 0) eqn:Hz; [discriminate Hr|].
    apply Z.eqb_neq in Hz. inversion Hr. split; [reflexivity|].
    cbn [count_data]. rewrite Z.add_0_r, Z.mod_small by lia. exact Hz.
  - cbn [a2b_scan count_data] in *. unfold is_data.
    destruct (b =? BASE64_PAD) eqn:Hp; cbn [negb andb].
    + destruct (2 <=? q); [destruct (4 <=? q + (p + 1)); [discriminate Hr|]|];
        apply IH in Hr; try exact Hq; rewrite Z.add_0_l; exact Hr.
    + destruct (64 <=? table_a2b_base64 b) eqn:Ht.
      * apply Z.leb_le in Ht. apply Z.ltb_ge in Ht. rewrite Ht.
        apply IH in Hr; try exact Hq. rewrite Z.add_0_l. exact Hr.
      * apply Z.leb_gt in Ht. apply Z.ltb_lt in Ht. rewrite Ht.
        assert (Hc : q = 0 \/ q = 1 \/ q = 2 \/ q = 3) by lia.
        destruct Hc as [->|[->|[->| ->]]]; cbn [Z.eqb Pos.eqb] in Hr;
          apply IH in Hr; try lia; destruct Hr as [He Hm];
          (split; [exact He|]); intros Hc; apply Hm; clear Hm IH;
          revert Hc; generalize (count_data l); intros c Hc;
          Z.div_mod_to_equations; lia.
Qed.

Lemma encode_ascii_filter (s : str) (bs : bytes) :
  encode_ascii s = Ok bs ->
  encode_ascii (base64_filtered s) = Ok (List.filter scanned bs).
Proof.
  revert bs. induction s as [|c s IH]; intros bs He; cbn in He.
  - inversion He. reflexivity.
  - destruct (ord c <? 128) eqn:Ha; [|discriminate He].
    destruct (encode_ascii s) as [bs'|] eqn:Hs; [|discriminate He].
    cbn in He. inversion He; subst bs. clear He.
    specialize (IH bs' eq_refl).
    unfold base64_filtered in *. cbn [filter_chars List.filter].
    assert (Hk : is_base64_char c || is_pad_char c = scanned (ord c)).
    { unfold is_base64_char, is_pad_char, scanned.
      destruct (ord c =? BASE64_PAD), (table_a2b_base64 (ord c) <? 64); reflexivity. }
    rewrite Hk. destruct (scanned (ord c)).
    + cbn [encode_ascii]. rewrite Ha, IH. reflexivity.
    + exact IH.
Qed.

Lemma encode_ascii_ok (s : str) :
  all_chars is_ascii_char s = true -> exists bs, encode_ascii s = Ok bs.
Proof.
  induction s as [|c s IH]; cbn; intros Ha.
  - eexists; reflexivity.
  - apply andb_prop in Ha as [Hc Hs]. unfold is_ascii_char in Hc. rewrite Hc.
    destruct (IH Hs) as [bs ->]. eexists; reflexivity.
Qed.

Lemma encode_ascii_raise (s : str) (e : exn) :
  encode_ascii s = Raise e -> e = ValueError /\ all_chars is_ascii_char s = false.
Proof.
  induction s as [|c s IH]; cbn; intros He; [discriminate He|].
  unfold is_ascii_char at 1. destruct (ord c <? 128); cbn [andb].
  - destruct (encode_ascii s); [discriminate He|]. cbn in He.
    inversion He; subst. apply IH. reflexivity.
  - inversion He. split; reflexivity.
Qed.

Lemma encode_ascii_count (s : str) (bs : bytes) :
  encode_ascii s = Ok bs -> count_data bs = count_chars is_base64_char s.
Proof.
  revert bs. induction s as [|c s IH]; intros bs He; cbn in He.
  - inversion He. reflexivity.
  - destruct (ord c <? 128); [|discriminate He].
    destruct (encode_ascii s) as [bs'|]; [|discriminate He].
    cbn in He. inversion He; subst bs. cbn [count_data count_chars].
    rewrite (IH bs' eq_refl). reflexivity.
Qed.

(** ASCII characters outside the alphabet are discarded. *)
Lemma b64decode_filtered (s : str) :
  all_chars is_ascii_char s = true ->
  b64decode (base64_filtered s) = b64decode s.
Proof.
  intros Ha. destruct (encode_ascii_ok s Ha) as [bs Hbs].
  unfold b64decode. rewrite (encode_ascii_filter s bs Hbs), Hbs. cbn [rbind].
  apply a2b_scan_filter.
Qed.

(** When decoding fails: on a character that is not ASCII, or else with
    a number of alphabet characters that is not a multiple of four. *)
Lemma b64decode_raise (s : str) (e : exn) :
  b64decode s = Raise e ->
  (e = ValueError /\ all_chars is_ascii_char s = false)
  \/ (e = binascii_Error /\ all_chars is_ascii_char s = true
      /\ count_chars is_base64_char s mod 4 <> 0).
Proof.
  unfold b64decode. intros Hr. destruct (encode_ascii s) as [bs|e'] eqn:He.
  - right. cbn [rbind] in Hr. unfold a2b_base64 in Hr.
    apply a2b_scan_raise in Hr as [He' Hm]; [|lia].
    rewrite Z.add_0_l, (encode_ascii_count s bs He) in Hm.
    split_and!; [exact He' | | exact Hm].
    destruct (all_chars is_ascii_char s) eqn:Ha; [reflexivity|].
    clear -He Ha. exfalso. revert bs He.
    induction s as [|c s IH]; intros bs He; cbn in *; [discriminate Ha|].
    unfold is_ascii_char in Ha at 1.
    destruct (ord c <? 128); [|discriminate He]. cbn [andb] in Ha.
    destruct (encode_ascii s) as [bs'|]; [|discriminate He].
    exact (IH Ha bs' eq_refl).
  - left. cbn [rbind] in Hr. inversion Hr; subst. apply encode_ascii_raise, He.
Qed.

Lemma filtered_empty_not_data_uri (s : str) :
  base64_filtered s = "" -> startswith s "data:" = false.
Proof.
  intros Hf. destruct (startswith s "data:") eqn:Hp; [|reflexivity].
  destruct (startswith_data _ Hp) as [r ->]. vm_compute in Hf. discriminate Hf.
Qed.

(** C9, as the code has it. The decoder is lenient: ASCII characters
    outside the base64 alphabet are discarded, so a string of ASCII
    characters none of which is in the alphabet or a pad character (the
    empty string is one) decodes to the empty byte sequence and gets the
    acknowledgment with status 200.  The error branch is taken only when
    the string has a character that is not ASCII, or when the number of its
    alphabet characters is not a multiple of four. *)
Theorem lenient_decoder (s : str) :
  (all_chars is_ascii_char s = true ->
     b64decode s = b64decode (base64_filtered s))
  /\ (all_chars is_ascii_char s = true -> base64_filtered s = "" ->
        b64decode s = Ok []
        /\ forall lbl w,
             upload_base64 (mkBase64Upload lbl s) w =
               (Ok (mkJSONResponse 200 (ack (of_optional lbl) (next_now w))),
                acked (save_image_call [] (of_optional lbl)) w))
  /\ (forall e, b64decode s = Raise e ->
        all_chars is_ascii_char s = false
        \/ count_chars is_base64_char s mod 4 <> 0)
  /\ (forall payload w r w',
        strip_data_uri (image payload) = s ->
        upload_base64 payload w = (Ok r, w') ->
        status_code r = 400 ->
        all_chars is_ascii_char s = false
        \/ count_chars is_base64_char s mod 4 <> 0).
Proof.
  assert (Hraise : forall e, b64decode s = Raise e ->
            all_chars is_ascii_char s = false
            \/ count_chars is_base64_char s mod 4 <> 0).
  { intros e Hr. destruct (b64decode_raise s e Hr) as [[_ H]|(_ & _ & H)];
      [left|right]; exact H. }
  split_and!.
  - intros Ha. symmetry. apply b64decode_filtered, Ha.
  - intros Ha Hf.
    assert (Hd : b64decode s = Ok [])
      by (rewrite <- (b64decode_filtered s Ha), Hf; reflexivity).
    split; [exact Hd|]. intros lbl w.
    apply upload_base64_decoded. cbn [image].
    rewrite (strip_data_uri_plain s (filtered_empty_not_data_uri s Hf)). exact Hd.
  - exact Hraise.
  - intros payload w r w' Hs Hrun Hst.
    destruct (b64decode s) as [bs|e] eqn:Hd.
    + rewrite <- Hs in Hd. rewrite (upload_base64_decoded _ _ _ Hd) in Hrun.
      inversion Hrun; subst r. discriminate Hst.
    + exact (Hraise e eq_refl).
Qed.

End Decoder.

(** ** The theorems at sample inputs *)

Section Samples.

Import Sample.

Lemma noon_ok : datetime_ok (next_now world).
Proof. unfold datetime_ok. cbn. lia. Defined.

Lemma label_received_iff_label_truthy_witness :
  acknowledged (PyStr "a") (ack (PyStr "a") noon)
  /\ label_received (ack (PyStr "a") noon) = Some (PyStr "a").
Proof.
  assert (Hack : acknowledged (PyStr "a") (ack (PyStr "a") noon)).
  { exact (ack_json (mkBase64Upload (Some "a") "QUJD") world
             (mkJSONResponse 200 (ack (PyStr "a") noon)) _ eq_refl eq_refl). }
  split; [exact Hack|].
  exact (proj1 (label_received_iff_label_truthy (PyStr "a") (ack (PyStr "a") noon) Hack)).
Defined.

(** C1 as stated fails for the empty label: it is not null, and the
    acknowledgment of the request that carries it has no
    [labelReceived]. *)
Lemma empty_label_is_not_echoed :
  let payload := mkBase64Upload (Some "") "QUJD" in
  of_optional (label payload) <> PyNone
  /\ exists r w',
       upload_base64 payload world = (Ok r, w')
       /\ status_code r = 200
       /\ acknowledged (of_optional (label payload)) (content r)
       /\ label_received (content r) = None
       /\ command_of (content r) = Some [("action", PyStr "ACK")].
Proof.
  intros payload. split; [discriminate|].
  exists (mkJSONResponse 200 (ack (PyStr "") noon)),
    (acked (save_image_call [65; 66; 67] (PyStr "")) world).
  split_and!; try reflexivity.
  exact (ack_json payload world (mkJSONResponse 200 (ack (PyStr "") noon)) _
           eq_refl eq_refl).
Qed.

Lemma undecodable_upload_is_rejected_witness :
  b64decode (strip_data_uri "not-base64-@@@") = Raise binascii_Error
  /\ exists r w',
       upload_base64 (mkBase64Upload (Some "cam1") "not-base64-@@@") world = (Ok r, w')
       /\ status_code r = 400
       /\ w' = world.
Proof.
  split; [reflexivity|].
  destruct (undecodable_upload_is_rejected
              (mkBase64Upload (Some "cam1") "not-base64-@@@") world binascii_Error eq_refl)
    as (r & w' & Hrun & Hst & _ & _ & Hw & _).
  exists r, w'. split_and!; assumption.
Defined.


Lemma data_uri_prefix_is_a_syntactic_strip_witness :
  base64_text "QUJD" = true
  /\ strip_data_uri "data:image/jpeg;base64,QUJD" = "QUJD"
  /\ b64decode (strip_data_uri "data:image/jpeg;base64,QUJD") = Ok [65; 66; 67]
  /\ upload_base64 (mkBase64Upload (Some "a") "data:image/jpeg;base64,QUJD") world
     = upload_base64 (mkBase64Upload (Some "a") "QUJD") world.
Proof.
  split; [reflexivity|].
  destruct (data_uri_prefix_is_a_syntactic_strip "QUJD" eq_refl)
    as (Hs & _ & Hd & Hup & _).
  split_and!.
  - exact Hs.
  - transitivity (b64decode (strip_data_uri "QUJD")); [exact Hd | reflexivity].
  - exact (Hup (Some "a") world).
Defined.





Lemma lenient_decoder_witness :
  all_chars is_ascii_char "@@@" = true
  /\ base64_filtered "@@@" = ""
  /\ b64decode "@@@" = Ok []
  /\ b64decode "" = Ok []
  /\ fst (upload_base64 (mkBase64Upload None "@@@") world)
     = Ok (mkJSONResponse 200 (ack PyNone noon)).
Proof.
  split; [reflexivity|]. split; [reflexivity|].
  destruct (lenient_decoder "@@@") as (_ & Hempty & _).
  destruct (Hempty eq_refl eq_refl) as [Hd Hup].
  split_and!.
  - exact Hd.
  - reflexivity.
  - rewrite (Hup None world). reflexivity.
Defined.

(** C9 as stated fails for a character that is not ASCII: [é] is
    outside the alphabet but is not discarded.  The string has no alphabet
    character and no padding, so that its filtered form decodes, yet the
    decoder raises and the upload is rejected. *)
Lemma non_ascii_is_not_discarded :
  let s := String (ascii_of_nat 233) "" in
  base64_filtered s = ""
  /\ count_chars is_base64_char s = 0
  /\ count_chars is_pad_char s = 0
  /\ b64decode (base64_filtered s) = Ok []
  /\ b64decode s = Raise ValueError
  /\ fst (upload_base64 (mkBase64Upload None s) world)
     = Ok (mkJSONResponse 400 (PyDict [("error", PyStr "Invalid base64 image")])).
Proof. intros s. split_and!; reflexivity. Qed.

Lemma data_header_without_comma_is_kept_witness :
  startswith "data:image/jpeg;base64" "data:" = true
  /\ ~ In ","%char (list_ascii_of_string "data:image/jpeg;base64")
  /\ strip_data_uri "data:image/jpeg;base64" = "data:image/jpeg;base64"
  /\ find "data:image/jpeg;base64" "," = -1.
Proof.
  assert (Hnc : ~ In ","%char (list_ascii_of_string "data:image/jpeg;base64")).
  { cbn. intros H. repeat (destruct H as [H|H]; [discriminate H|]). exact H. }
  split; [reflexivity|]. split; [exact Hnc|].
  destruct (data_header_without_comma_is_kept (library := library)
              "data:image/jpeg;base64" eq_refl Hnc) as (Hf & Hs & _).
  split; [exact Hs | exact Hf].
Defined.

End Samples.

(** ** Further properties of the WebSocket loop *)

Section WebSocketLoop.

Context {library : Library}.

Lemma extends_refl (w : World) : extends w w [] [].
Proof.
  unfold extends. rewrite !app_nil_r. cbn [length]. rewrite Nat.add_0_r.
  split_and!; reflexivity.
Qed.

Lemma extends_trans w w1 w2 f1 f2 t1 t2 :
  extends w w1 f1 t1 -> extends w1 w2 f2 t2 -> extends w w2 (f1 ++ f2) (t1 ++ t2).
Proof.
  intros (Hc1 & Hr1 & Hs1 & Hf1 & Hfs1 & Hco1) (Hc2 & Hr2 & Hs2 & Hf2 & Hfs2 & Hco2).
  unfold extends. rewrite Hc2, Hr2, Hs2, Hf2, Hfs2, Hco2, Hc1, Hr1, Hs1, Hf1, Hfs1, Hco1.
  rewrite !app_assoc, length_app. split_and!; try reflexivity. lia.
Qed.

Lemma receive_is_not_disconnect (data : asgi_message) :
  String.eqb (msg_type data) "websocket.receive" = true -> is_disconnect data = false.
Proof.
  intros Hr. apply String.eqb_eq in Hr. unfold is_disconnect. rewrite Hr. reflexivity.
Qed.

(** What one iteration does, whatever the message: it never raises; it
    leaves the loop exactly on a disconnect; it sends one frame if the
    message is answered and none otherwise; it schedules one task and
    reads the clock once if that frame is an acknowledgment. *)
Lemma websocket_iteration_effect (data : asgi_message) (w : World) :
  exists frames tasks w1,
    websocket_iteration data w =
      (Ok (if is_disconnect data then leave_loop else next_iteration), w1)
    /\ extends w w1 frames tasks
    /\ length frames = (if answered data then 1 else 0)%nat
    /\ length tasks = length (List.filter is_ack_frame frames).
Proof.
  unfold websocket_iteration, answered.
  destruct (String.eqb (msg_type data) "websocket.receive") eqn:Hr.
  - rewrite (receive_is_not_disconnect data Hr). cbn [andb].
    destruct (msg_text data) as [text|].
    + destruct (parse_text_frame text) as [[lbl image_bytes|]|e].
      * exists [ack lbl (next_now w)], [save_image_call image_bytes lbl]. eexists.
        split; [reflexivity|]. unfold extends. cbn. split_and!; try reflexivity; try lia;
          destruct (msg_bytes data); reflexivity.
      * exists [format_error], []. eexists. split; [reflexivity|].
        unfold extends. cbn. rewrite app_nil_r, Nat.add_0_r.
        split_and!; try reflexivity; try lia;
          destruct (msg_bytes data); reflexivity.
      * exists [malformed_error], []. eexists. split; [reflexivity|].
        unfold extends. cbn. rewrite app_nil_r, Nat.add_0_r.
        split_and!; try reflexivity; try lia;
          destruct (msg_bytes data); reflexivity.
    + destruct (msg_bytes data) as [image_bytes|].
      * exists [ack PyNone (next_now w)], [save_image_call image_bytes PyNone]. eexists.
        split; [reflexivity|]. unfold extends. cbn. split_and!; try reflexivity; lia.
      * exists [], [], w. split; [reflexivity|].
        split; [apply extends_refl|]. split; reflexivity.
  - cbn [andb]. exists [], [], w. unfold is_disconnect.
    destruct (String.eqb (msg_type data) "websocket.disconnect");
      (split; [reflexivity|]); (split; [apply extends_refl|]); split; reflexivity.
Qed.

Lemma websocket_endpoint_cons data rest w ctl w1 :
  websocket_iteration data w = (Ok ctl, w1) ->
  websocket_endpoint (data :: rest) w =
    match ctl with
    | next_iteration => websocket_endpoint rest w1
    | leave_loop => (Ok returned, w1)
    end.
Proof.
  intros Hit. cbn [websocket_endpoint]. unfold mbind, M_bind. rewrite Hit.
  destruct ctl; reflexivity.
Qed.

(** The whole run: the endpoint never raises, it returns exactly when a
    disconnect was received, and what it did is the sum of what the
    iterations up to that disconnect did. *)
Lemma websocket_endpoint_effect (incoming : list asgi_message) (w : World) :
  exists frames tasks w1,
    websocket_endpoint incoming w =
      (Ok (if existsb is_disconnect incoming then returned else awaiting_receive), w1)
    /\ extends w w1 frames tasks
    /\ length frames = length (List.filter answered (until_disconnect incoming))
    /\ length tasks = length (List.filter is_ack_frame frames).
Proof.
  revert w. induction incoming as [|data rest IH]; intros w.
  - exists [], [], w. split; [reflexivity|]. split; [apply extends_refl|].
    split; reflexivity.
  - destruct (websocket_iteration_effect data w)
      as (f1 & t1 & w1 & Hit & Hext & Hlen & Htasks).
    rewrite (websocket_endpoint_cons _ rest _ _ _ Hit).
    cbn [existsb until_disconnect]. destruct (is_disconnect data) eqn:Hd.
    + cbn [orb]. exists f1, t1, w1. split; [reflexivity|]. split; [exact Hext|].
      split; [|exact Htasks].
      rewrite Hlen. unfold answered, is_disconnect in *.
      destruct (String.eqb (msg_type data) "websocket.receive") eqn:Hr; [|reflexivity].
      apply String.eqb_eq in Hr. rewrite Hr in Hd. discriminate Hd.
    + cbn [orb]. destruct (IH w1) as (f2 & t2 & w2 & Hrun & Hext2 & Hlen2 & Htasks2).
      exists (f1 ++ f2), (t1 ++ t2), w2. split; [exact Hrun|].
      split; [exact (extends_trans _ _ _ _ _ _ _ Hext Hext2)|].
      cbn [List.filter]. rewrite List.filter_app, !length_app, Hlen, Hlen2, Htasks, Htasks2.
      split; [|reflexivity]. destruct (answered data); reflexivity.
Qed.

End WebSocketLoop.

Section WebSocketLoopTheorems.

Context {library : Library}.

Lemma sends_go_through_inv (o : option exn) (outcomes : list (option exn)) :
  sends_go_through (o :: outcomes) -> o = None /\ sends_go_through outcomes.
Proof. intros H. inversion H; subst. split; [reflexivity | assumption]. Qed.

Lemma send_json_goes_through (obj : pyval) (w : World) (outcomes : list (option exn)) :
  sends_go_through outcomes ->
  exists rest,
    Socket.send_json obj (w, outcomes) = (Ok tt, (with_sent obj w, rest))
    /\ sends_go_through rest.
Proof.
  intros Hs. destruct outcomes as [|o outcomes].
  - exists []. split; [reflexivity | constructor].
  - apply sends_go_through_inv in Hs as [-> Hs].
    exists outcomes. split; [reflexivity | exact Hs].
Qed.

(** What the [try] block of a text frame raises is an [Exception]. *)
Lemma parse_text_frame_Exception (text : str) (e : exn) :
  loads_raises_Exceptions ->
  parse_text_frame text = Raise e -> is_Exception e = true.
Proof.
  intros Hlib. unfold parse_text_frame.
  destruct (json_loads text) as [msg|e'] eqn:Hj; cbn [rbind].
  - destruct (get msg "label") as [lbl|e'] eqn:Hl; cbn [rbind].
    + destruct (get msg "image") as [img|e'] eqn:Hi; cbn [rbind].
      * destruct img; try discriminate.
        destruct (b64decode (strip_data_uri s)) as [bs|e'] eqn:Hd; cbn [rbind];
          [discriminate|].
        intros Hr. inversion Hr; subst e'.
        apply b64decode_raise in Hd as [[-> _]|[-> _]]; reflexivity.
      * intros Hr. inversion Hr; subst e'.
        destruct msg; cbn in Hi; try discriminate Hi; inversion Hi; reflexivity.
    + intros Hr. inversion Hr; subst e'.
      destruct msg; cbn in Hl; try discriminate Hl; inversion Hl; reflexivity.
  - intros Hr. inversion Hr; subst e'. exact (Hlib _ _ Hj).
Qed.

(** The next send, on a connection where the sends go through. *)
Ltac next_send Hs :=
  match type of Hs with
  | sends_go_through ?outcomes =>
      let o := fresh "o" in
      let rest := fresh "rest" in
      destruct outcomes as [|o rest];
      [ exists []; split; [reflexivity | constructor]
      | apply sends_go_through_inv in Hs as [-> Hs];
        exists rest; split; [reflexivity | exact Hs] ]
  end.

(** On a connection where the sends go through, an iteration does what
    the iteration on a live connection does. *)
Lemma socket_iteration_live (data : asgi_message) (w : World) outcomes :
  loads_raises_Exceptions ->
  sends_go_through outcomes ->
  exists rest,
    Socket.websocket_iteration data (w, outcomes) =
      (fst (websocket_iteration data w), (snd (websocket_iteration data w), rest))
    /\ sends_go_through rest.
Proof.
  intros Hlib Hs.
  unfold Socket.websocket_iteration, websocket_iteration.
  destruct (String.eqb (msg_type data) "websocket.receive").
  - destruct (msg_text data) as [text|].
    + unfold mbind at 1. unfold Socket.IO_bind at 1.
      unfold Socket.text_try, Socket.try_except_Exception.
      destruct (parse_text_frame text) as [[lbl image_bytes|]|e] eqn:Hp.
      * next_send Hs.
      * next_send Hs.
      * unfold Socket.raise. rewrite (parse_text_frame_Exception text e Hlib Hp).
        next_send Hs.
    + destruct (msg_bytes data) as [image_bytes|].
      * next_send Hs.
      * exists outcomes. split; [reflexivity | exact Hs].
  - destruct (String.eqb (msg_type data) "websocket.disconnect");
      exists outcomes; (split; [reflexivity | exact Hs]).
Qed.

(** The loop on messages that all arrive, followed by whatever comes
    next: it goes through the messages as on a live connection, and on to
    what comes next unless one of them was a disconnect. *)
Lemma socket_loop_live (incoming : list asgi_message) tail (w : World) outcomes :
  loads_raises_Exceptions ->
  sends_go_through outcomes ->
  exists rest,
    sends_go_through rest
    /\ Socket.receive_loop (map Ok incoming ++ tail) (w, outcomes) =
       if existsb is_disconnect incoming
       then (Ok returned, (snd (websocket_endpoint incoming w), rest))
       else Socket.receive_loop tail (snd (websocket_endpoint incoming w), rest).
Proof.
  intros Hlib. revert w outcomes.
  induction incoming as [|data incoming IH]; intros w outcomes Hs.
  - exists outcomes. split; [exact Hs | reflexivity].
  - destruct (socket_iteration_live data w outcomes Hlib Hs) as (mid & Hit & Hmid).
    destruct (websocket_iteration_effect data w) as (fr & ts & w1 & Hrun & _).
    rewrite Hrun in Hit. cbn [fst snd] in Hit.
    cbn [map app Socket.receive_loop existsb]. unfold mbind at 1.
    unfold Socket.IO_bind at 1. rewrite Hit.
    rewrite (websocket_endpoint_cons _ incoming _ _ _ Hrun).
    destruct (is_disconnect data); cbn [orb].
    + exists mid. split; [exact Hmid | reflexivity].
    + exact (IH w1 mid Hmid).
Qed.

(** X1: on a connection where every message arrives and every send goes
    through, the endpoint raises nothing.  It returns exactly when a
    disconnect was received; until then it waits for the next message.  It
    sends exactly one frame for each message, up to the first disconnect,
    that is a [websocket.receive] with a text or with bytes, after the
    frames sent before, which it leaves as they are. *)
Theorem websocket_one_frame_per_answered_message
    (incoming : list asgi_message) (w : World) (outcomes : list (option exn)) :
  loads_raises_Exceptions ->
  sends_go_through outcomes ->
  exists frames w1 rest,
    Socket.websocket_endpoint (map Ok incoming) (w, outcomes) =
      (Ok (if existsb is_disconnect incoming then returned else awaiting_receive),
       (w1, rest))
    /\ sent w1 = sent w ++ frames
    /\ length frames = length (List.filter answered (until_disconnect incoming)).
Proof.
  intros Hlib Hs.
  destruct (socket_loop_live incoming [] w outcomes Hlib Hs) as (rest & _ & Hloop).
  rewrite app_nil_r in Hloop.
  destruct (websocket_endpoint_effect incoming w)
    as (frames & tasks & w1 & Hrun & Hext & Hlen & _).
  rewrite Hrun in Hloop. cbn [snd] in Hloop.
  exists frames, w1, rest. split_and!.
  - unfold Socket.websocket_endpoint. rewrite Hloop.
    destruct (existsb is_disconnect incoming); reflexivity.
  - destruct Hext as (_ & _ & _ & Hsent & _). exact Hsent.
  - exact Hlen.
Qed.

(** X2: on the socket, acknowledgments, scheduled saves and readings of
    the clock go together: the endpoint schedules one task and reads the
    clock once for each acknowledgment it sends, and does neither for an
    error frame. *)
Theorem websocket_one_save_per_acknowledgment
    (incoming : list asgi_message) (w : World) :
  exists frames tasks,
    let w1 := snd (websocket_endpoint incoming w) in
    sent w1 = sent w ++ frames
    /\ scheduled w1 = scheduled w ++ tasks
    /\ length tasks = length (List.filter is_ack_frame frames)
    /\ clock_reads w1 = (clock_reads w + length tasks)%nat.
Proof.
  destruct (websocket_endpoint_effect incoming w)
    as (frames & tasks & w1 & Hrun & Hext & _ & Htasks).
  exists frames, tasks. rewrite Hrun. cbn [snd].
  destruct Hext as (_ & Hreads & Hsched & Hsent & _).
  split_and!; assumption.
Qed.

(** X4: nothing that comes after a disconnect is looked at. *)
Theorem websocket_stops_at_disconnect
    (before after : list asgi_message) (data : asgi_message) (w : World) :
  is_disconnect data = true ->
  websocket_endpoint (before ++ data :: after) w =
  websocket_endpoint (before ++ [data]) w
  /\ fst (websocket_endpoint (before ++ data :: after) w) = Ok returned.
Proof.
  intros Hd.
  assert (Heq : websocket_endpoint (before ++ data :: after) w =
                websocket_endpoint (before ++ [data]) w).
  { revert w. induction before as [|m before IH]; intros w.
    - destruct (websocket_iteration_effect data w) as (? & ? & w1 & Hit & _).
      rewrite Hd in Hit. cbn [app].
      rewrite (websocket_endpoint_cons _ after _ _ _ Hit).
      rewrite (websocket_endpoint_cons _ [] _ _ _ Hit). reflexivity.
    - destruct (websocket_iteration_effect m w) as (? & ? & w1 & Hit & _).
      cbn [app]. rewrite !(websocket_endpoint_cons _ _ _ _ _ Hit).
      destruct (is_disconnect m); [reflexivity | apply IH]. }
  split; [exact Heq|].
  destruct (websocket_endpoint_effect (before ++ data :: after) w)
    as (? & ? & w1 & -> & _).
  rewrite existsb_app. cbn [existsb fst]. rewrite Hd, orb_true_r. reflexivity.
Qed.

(** X5: while no disconnect comes, the loop keeps nothing from one
    iteration to the next but the world: running the endpoint on the
    messages received first and then on those received later is the same
    as running it on all of them. *)
Theorem websocket_runs_compose
    (first later : list asgi_message) (w : World) :
  existsb is_disconnect first = false ->
  fst (websocket_endpoint first w) = Ok awaiting_receive
  /\ websocket_endpoint (first ++ later) w =
     websocket_endpoint later (snd (websocket_endpoint first w)).
Proof.
  revert w. induction first as [|m first IH]; intros w Hnd.
  - split; reflexivity.
  - cbn [existsb] in Hnd. apply orb_false_elim in Hnd as [Hm Hfirst].
    destruct (websocket_iteration_effect m w) as (? & ? & w1 & Hit & _).
    rewrite Hm in Hit. cbn [app].
    rewrite !(websocket_endpoint_cons _ _ _ _ _ Hit). apply IH, Hfirst.
Qed.

Lemma extends_nothing (w w1 : World) : extends w w1 [] [] -> w1 = w.
Proof.
  destruct w, w1. unfold extends. cbn. rewrite !app_nil_r, Nat.add_0_r.
  intros (-> & -> & -> & -> & -> & ->). reflexivity.
Qed.

(** X6: a message that is neither a disconnect nor a [websocket.receive]
    with a text or with bytes changes nothing: the endpoint does on the
    incoming messages what it does on them with those messages dropped. *)
Theorem websocket_ignores_other_messages
    (incoming : list asgi_message) (w : World) :
  websocket_endpoint
    (List.filter (fun data => answered data || is_disconnect data) incoming) w
  = websocket_endpoint incoming w.
Proof.
  revert w. induction incoming as [|m rest IH]; intros w; [reflexivity|].
  destruct (websocket_iteration_effect m w)
    as (frames & tasks & w1 & Hit & Hext & Hlen & Htasks).
  cbn [List.filter]. rewrite (websocket_endpoint_cons _ rest _ _ _ Hit).
  destruct (answered m) eqn:Ha; cbn [orb].
  - rewrite (websocket_endpoint_cons _ _ _ _ _ Hit).
    destruct (is_disconnect m); [reflexivity | apply IH].
  - destruct (is_disconnect m) eqn:Hd.
    + rewrite (websocket_endpoint_cons _ _ _ _ _ Hit). reflexivity.
    + destruct frames; [|discriminate Hlen]. destruct tasks; [|discriminate Htasks].
      rewrite (extends_nothing _ _ Hext). apply IH.
Qed.

(** X7: a text that is valid JSON but not an object gets the
    [Malformed JSON or base64 decode error] frame, since [msg.get] raises
    inside the [try]; an object without the key [image] gets the
    [must be base64 string] frame, since [msg.get] gives [None].  Either
    way the loop goes on and nothing else changes. *)
Theorem websocket_text_without_image
    (text : str) (b : option bytes) (msg : pyval) (w : World) :
  json_loads text = Ok msg ->
  ((forall d, msg <> PyDict d) ->
     websocket_iteration (text_message text b) w =
       (Ok next_iteration, with_sent malformed_error w))
  /\ (forall d, msg = PyDict d -> dict_lookup d "image" = None ->
        websocket_iteration (text_message text b) w =
          (Ok next_iteration, with_sent format_error w)).
Proof.
  intros Hj. split.
  - intros Hnd. apply (websocket_text_raised _ _ _ AttributeError).
    unfold parse_text_frame. rewrite Hj.
    destruct msg; try reflexivity. exfalso. exact (Hnd d eq_refl).
  - intros d -> Hi. apply websocket_text_not_a_string.
    unfold parse_text_frame. rewrite Hj. cbn. rewrite Hi. reflexivity.
Qed.

End WebSocketLoopTheorems.

(** ** The endpoint when the connection fails *)

Section SocketFaults.

Context {library : Library}.

Lemma socket_endpoint_raise incoming s e s' :
  Socket.receive_loop incoming s = (Raise e, s') ->
  Socket.websocket_endpoint incoming s = (out_of_endpoint e, s').
Proof.
  intros Hloop. unfold Socket.websocket_endpoint. rewrite Hloop.
  destruct e; reflexivity.
Qed.

(** X21: exceptions on the socket.  The endpoint never lets a
    [WebSocketDisconnect] out.  When [ws.receive()] raises, after messages
    that arrived and were answered, the endpoint returns if the exception
    is [WebSocketDisconnect] and lets it out otherwise; either way the
    messages handled before keep their effects and nothing more is
    received.  When the send of an acknowledgment raises, the same holds,
    and the save of that image was already scheduled and the clock read,
    though no frame went out. *)
Theorem websocket_disconnect_is_absorbed :
  (forall incoming s,
     fst (Socket.websocket_endpoint incoming s) <> Raise WebSocketDisconnect)
  /\ (forall before e after w outcomes,
        loads_raises_Exceptions ->
        sends_go_through outcomes ->
        existsb is_disconnect before = false ->
        exists rest,
          Socket.websocket_endpoint (map Ok before ++ Raise e :: after) (w, outcomes)
          = (out_of_endpoint e, (snd (websocket_endpoint before w), rest)))
  /\ (forall image_bytes e after w rest,
        Socket.websocket_endpoint
          (Ok (binary_message image_bytes) :: after) (w, Some e :: rest)
        = (out_of_endpoint e, (acked (save_image_call image_bytes PyNone) w, rest)))
  /\ (forall text b lbl image_bytes e after w rest,
        parse_text_frame text = Ok (decoded lbl image_bytes) ->
        Socket.websocket_endpoint
          (Ok (text_message text b) :: after) (w, Some e :: rest)
        = (out_of_endpoint e, (acked (save_image_call image_bytes lbl) w, rest))).
Proof.
  split_and!.
  - intros incoming s. unfold Socket.websocket_endpoint.
    destruct (Socket.receive_loop incoming s) as [[st|e] s']; [discriminate|].
    destruct e; discriminate.
  - intros before e after w outcomes Hlib Hs Hnone.
    destruct (socket_loop_live before (Raise e :: after) w outcomes Hlib Hs)
      as (rest & _ & Hloop).
    rewrite Hnone in Hloop. exists rest.
    apply socket_endpoint_raise. exact Hloop.
  - intros image_bytes e after w rest. apply socket_endpoint_raise. reflexivity.
  - intros text b lbl image_bytes e after w rest Hp. apply socket_endpoint_raise.
    cbn [Socket.receive_loop]. unfold mbind at 1. unfold Socket.IO_bind at 1.
    unfold Socket.websocket_iteration. cbn [msg_type msg_text text_message String.eqb Ascii.eqb Bool.eqb].
    unfold mbind at 1. unfold Socket.IO_bind at 1.
    unfold Socket.text_try, Socket.try_except_Exception. rewrite Hp. reflexivity.
Qed.

(** X22: the error frame for an image that is not a string is sent
    inside the [try] block, and so its failure is handled like a failure of
    decoding.  When that send raises an [Exception], the endpoint sends the
    malformed-message error instead: if this second send goes through, the
    loop goes on and the client has been told of malformed JSON for a
    message whose JSON was well formed; if it raises too, it is the second
    exception that comes out, or ends the endpoint if it is
    [WebSocketDisconnect].  An exception that is no [Exception] comes out
    at once. *)
Theorem failed_format_error_is_handled_as_malformed
    (text : str) (b : option bytes) (e : exn) (w : World) (rest : list (option exn)) :
  parse_text_frame text = Ok not_a_string ->
  (is_Exception e = true ->
     Socket.websocket_iteration (text_message text b) (w, Some e :: None :: rest)
     = (Ok next_iteration, (with_sent malformed_error w, rest))
     /\ forall e2 after,
          Socket.websocket_endpoint
            (Ok (text_message text b) :: after) (w, Some e :: Some e2 :: rest)
          = (out_of_endpoint e2, (w, rest)))
  /\ (is_Exception e = false ->
        forall after,
          Socket.websocket_endpoint (Ok (text_message text b) :: after) (w, Some e :: rest)
          = (Raise e, (w, rest))).
Proof.
  intros Hp.
  assert (Hit : forall outcomes,
            Socket.websocket_iteration (text_message text b) (w, Some e :: outcomes) =
            if is_Exception e
            then match outcomes with
                 | Some e2 :: rest' => (Raise e2, (w, rest'))
                 | None :: rest' => (Ok next_iteration, (with_sent malformed_error w, rest'))
                 | [] => (Ok next_iteration, (with_sent malformed_error w, []))
                 end
            else (Raise e, (w, outcomes))).
  { intros outcomes. unfold Socket.websocket_iteration.
    cbn [msg_type msg_text text_message String.eqb Ascii.eqb Bool.eqb].
    unfold mbind at 1. unfold Socket.IO_bind at 1.
    unfold Socket.text_try, Socket.try_except_Exception. rewrite Hp.
    cbv beta iota delta [mbind mret Socket.IO_bind Socket.IO_ret Socket.send_json fst snd].
    destruct (is_Exception e); [|reflexivity].
    destruct outcomes as [|[e2|] rest']; reflexivity. }
  split.
  - intros He. split.
    + rewrite Hit, He. reflexivity.
    + intros e2 after. apply socket_endpoint_raise.
      cbn [Socket.receive_loop]. unfold mbind at 1. unfold Socket.IO_bind at 1.
      rewrite Hit, He. reflexivity.
  - intros He after.
    rewrite (socket_endpoint_raise _ _ e (w, rest)).
    + destruct e; try discriminate He. reflexivity.
    + cbn [Socket.receive_loop]. unfold mbind at 1. unfold Socket.IO_bind at 1.
      rewrite Hit, He. reflexivity.
Qed.

Lemma socket_iteration_storage data fs sys w outcomes :
  Socket.websocket_iteration data (with_storage fs sys w, outcomes) =
    (fst (Socket.websocket_iteration data (w, outcomes)),
     (with_storage fs sys (fst (snd (Socket.websocket_iteration data (w, outcomes)))),
      snd (snd (Socket.websocket_iteration data (w, outcomes))))).
Proof.
  unfold Socket.websocket_iteration.
  destruct (String.eqb (msg_type data) "websocket.receive").
  - destruct (msg_text data) as [text|].
    + unfold Socket.text_try, Socket.try_except_Exception.
      destruct (parse_text_frame text) as [[lbl image_bytes|]|e].
      * destruct outcomes as [|[e|] rest]; reflexivity.
      * destruct outcomes as [|[e|] rest]; try reflexivity.
        destruct e; try reflexivity; destruct rest as [|[e|] rest]; reflexivity.
      * destruct e; try reflexivity; destruct outcomes as [|[e|] rest]; reflexivity.
    + destruct (msg_bytes data) as [image_bytes|]; [|reflexivity].
      destruct outcomes as [|[e|] rest]; reflexivity.
  - destruct (String.eqb (msg_type data) "websocket.disconnect"); reflexivity.
Qed.

Lemma socket_loop_storage incoming fs sys w outcomes :
  Socket.receive_loop incoming (with_storage fs sys w, outcomes) =
    (fst (Socket.receive_loop incoming (w, outcomes)),
     (with_storage fs sys (fst (snd (Socket.receive_loop incoming (w, outcomes)))),
      snd (snd (Socket.receive_loop incoming (w, outcomes))))).
Proof.
  revert w outcomes. induction incoming as [|[data|e] rest IH]; intros w outcomes.
  - reflexivity.
  - cbn [Socket.receive_loop]. unfold mbind, Socket.IO_bind.
    rewrite socket_iteration_storage.
    destruct (Socket.websocket_iteration data (w, outcomes)) as [[[|]|e] [w1 o1]];
      cbn [fst snd].
    + apply IH.
    + reflexivity.
    + reflexivity.
  - reflexivity.
Qed.

(** X3: the steps of the endpoint itself involve no file.  Whatever
    the files are and whatever the system does with them, and whatever
    happens on the connection, the endpoint ends the same way, sends the
    same frames and creates the same tasks.  (The saves it creates do touch
    files, whenever the event loop runs them.) *)
Theorem websocket_leaves_the_file_system
    (incoming : list (result asgi_message)) (w : World) (outcomes : list (option exn))
    (fs : gmap N (list Z)) (sys : System) :
  let r := Socket.websocket_endpoint incoming (w, outcomes) in
  let r' := Socket.websocket_endpoint incoming (with_storage fs sys w, outcomes) in
  fst r' = fst r
  /\ sent (fst (snd r')) = sent (fst (snd r))
  /\ scheduled (fst (snd r')) = scheduled (fst (snd r))
  /\ snd (snd r') = snd (snd r).
Proof.
  intros r r'. unfold r', r, Socket.websocket_endpoint.
  rewrite socket_loop_storage.
  destruct (Socket.receive_loop incoming (w, outcomes)) as [[st|e] [w1 o1]];
    cbn [fst snd].
  - split_and!; reflexivity.
  - destruct e; cbn [fst snd]; split_and!; reflexivity.
Qed.

End SocketFaults.

(** ** Further properties of the HTTP handlers *)


(** X9: the JSON handler.  When the image does not decode it answers 400
    with [{"error": "Invalid base64 image"}] and changes nothing.  When the
    image decodes it schedules one save, of the decoded bytes and with the
    label of the request, reads the clock once, and touches neither the
    socket nor the file system. *)
Theorem upload_base64_outcomes (payload : Base64Upload) (w : World) :
  match b64decode (strip_data_uri (image payload)) with
  | Ok image_bytes =>
      extends w (snd (upload_base64 payload w)) []
        [save_image_call image_bytes (of_optional (label payload))]
  | Raise _ =>
      upload_base64 payload w =
        (Ok (mkJSONResponse 400 (PyDict [("error", PyStr "Invalid base64 image")])), w)
  end.
Proof.
  destruct (b64decode (strip_data_uri (image payload))) as [image_bytes|e] eqn:Hd.
  - rewrite (upload_base64_decoded _ _ _ Hd).
    unfold extends. cbn. rewrite app_nil_r. split_and!; try reflexivity. lia.
  - exact (upload_base64_rejected _ _ _ Hd).
Qed.

(** ** Further properties of the persistence sink *)

Section PersistenceTheorems.

Context {settings : Settings} {library : Library}.

(** What a save that opens and writes its file leaves behind. *)
Lemma save_image_written image_bytes (o : option str) w f :
  STORE_IMAGES = true ->
  opening (system w) (image_path (next_now w) o) = Ok f ->
  write_fault (system w) f image_bytes = None ->
  save_image image_bytes (of_optional o) w =
    (Ok tt,
     mkWorld (clock w) (S (clock_reads w)) (scheduled w) (sent w)
       (<[f := image_bytes]> (files w)) (system w)).
Proof.
  intros Hs Hopen Hwrite. rewrite (save_image_cases _ _ _ Hs). cbv zeta.
  rewrite Hopen, Hwrite. reflexivity.
Qed.

(** X10: with the storage flag off, as the module sets it, running the
    scheduled tasks changes nothing, whatever was uploaded: no file is
    written and the clock is not read. *)
Theorem disabled_storage_never_writes (ts : list task) (w : World) :
  STORE_IMAGES = false -> run_tasks ts w = w.
Proof.
  intros Hs. revert w. unfold run_tasks.
  induction ts as [|[image_bytes lbl] ts IH]; intros w; [reflexivity|].
  cbn [fold_left run_task]. rewrite (save_image_disabled _ _ _ Hs). apply IH.
Qed.

(** X11: file names have the granularity of a second and nothing makes
    them unique.  Take two saves, the second started after the first has
    finished, whose clock readings fall in the same second and whose labels
    give the same suffix.  Both open the same path; if the system opens the
    file and the writes go through, the second replaces the first, whose
    bytes are lost, and one file is left where two images were saved. *)
Theorem saves_in_one_second_collide
    (b1 b2 : bytes) (o1 o2 : option str) (w : World) (f : N) :
  STORE_IMAGES = true ->
  strftime_compact (clock w (S (clock_reads w))) = strftime_compact (next_now w) ->
  label_suffix o1 = label_suffix o2 ->
  opening (system w) (image_path (next_now w) o1) = Ok f ->
  write_fault (system w) f b1 = None ->
  write_fault (system w) f b2 = None ->
  let w1 := snd (save_image b1 (of_optional o1) w) in
  let w2 := snd (save_image b2 (of_optional o2) w1) in
  image_path (next_now w1) o2 = image_path (next_now w) o1
  /\ files w1 = <[f := b1]> (files w)
  /\ files w2 = <[f := b2]> (files w).
Proof.
  intros Hs Hsec Hsuf Hopen Hw1 Hw2 w1 w2.
  assert (E1 : w1 = mkWorld (clock w) (S (clock_reads w)) (scheduled w) (sent w)
                      (<[f := b1]> (files w)) (system w)).
  { unfold w1. rewrite (save_image_written b1 o1 w f Hs Hopen Hw1). reflexivity. }
  assert (Hp : image_path (next_now w1) o2 = image_path (next_now w) o1).
  { rewrite E1. unfold image_path, next_now. cbn [clock clock_reads].
    rewrite Hsec, Hsuf. reflexivity. }
  split; [exact Hp|]. split; [rewrite E1; reflexivity|].
  unfold w2. rewrite (save_image_written b2 o2 w1 f Hs).
  - rewrite E1. cbn [snd files]. apply insert_insert_eq.
  - rewrite Hp. rewrite E1. exact Hopen.
  - rewrite E1. exact Hw2.
Qed.

End PersistenceTheorems.

Lemma append_cancel_l (s a b : str) : s +:+ a = s +:+ b -> a = b.
Proof.
  induction s as [|c s IH]; intros H.
  - exact H.
  - apply IH. change (String c s +:+ a) with (String c (s +:+ a)) in H.
    change (String c s +:+ b) with (String c (s +:+ b)) in H.
    inversion H. reflexivity.
Qed.

Lemma append_cancel_r (a b t : str) : a +:+ t = b +:+ t -> a = b.
Proof.
  revert b. induction a as [|c a IH]; intros b H.
  - destruct b as [|c' b]; [reflexivity|]. exfalso.
    apply (f_equal String.length) in H. rewrite !length_append in H.
    cbn in H. lia.
  - destruct b as [|c' b].
    + exfalso. apply (f_equal String.length) in H.
      rewrite !length_append in H. cbn in H. lia.
    + change (String c a +:+ t) with (String c (a +:+ t)) in H.
      change (String c' b +:+ t) with (String c' (b +:+ t)) in H.
      inversion H. f_equal. apply IH. assumption.
Qed.

Section PersistenceNames.

Context {settings : Settings} {library : Library}.

(** X12: within one second the label is what keeps saves apart, as far
    as the path goes.  For two labels without a slash that give different
    suffixes, the paths of one second differ.  If the system opens them as
    two different files and the writes go through, then after two saves in
    that second, the second started after the first has finished, each file
    has its own bytes. *)
Theorem labels_keep_saves_apart
    (b1 b2 : bytes) (o1 o2 : option str) (w : World) (f1 f2 : N) :
  STORE_IMAGES = true ->
  datetime_ok (next_now w) -> 1000 <= year (next_now w) ->
  strftime_compact (clock w (S (clock_reads w))) = strftime_compact (next_now w) ->
  label_no_slash o1 = true -> label_no_slash o2 = true ->
  label_suffix o1 <> label_suffix o2 ->
  let p1 := image_path (next_now w) o1 in
  let p2 := image_path (next_now w) o2 in
  p1 <> p2
  /\ (opening (system w) p1 = Ok f1 -> opening (system w) p2 = Ok f2 -> f1 <> f2 ->
      write_fault (system w) f1 b1 = None -> write_fault (system w) f2 b2 = None ->
      let w1 := snd (save_image b1 (of_optional o1) w) in
      let w2 := snd (save_image b2 (of_optional o2) w1) in
      files w2 !! f1 = Some b1 /\ files w2 !! f2 = Some b2).
Proof.
  intros Hs Hnow Hyear Hsec Hl1 Hl2 Hsuf p1 p2. split.
  - unfold p1, p2. rewrite !image_path_name by assumption.
    intros Heq. apply app_inv_head in Heq. inversion Heq as [Hn].
    apply append_cancel_l, append_cancel_r in Hn. exact (Hsuf Hn).
  - intros Hopen1 Hopen2 Hne Hw1 Hw2 w1 w2.
    assert (E1 : w1 = mkWorld (clock w) (S (clock_reads w)) (scheduled w) (sent w)
                        (<[f1 := b1]> (files w)) (system w)).
    { unfold w1. rewrite (save_image_written b1 o1 w f1 Hs Hopen1 Hw1). reflexivity. }
    assert (Hp : image_path (next_now w1) o2 = p2).
    { rewrite E1. unfold p2, image_path, next_now. cbn [clock clock_reads].
      rewrite Hsec. reflexivity. }
    assert (E2 : files w2 = <[f2 := b2]> (<[f1 := b1]> (files w))).
    { unfold w2. rewrite (save_image_written b2 o2 w1 f2 Hs).
      - rewrite E1. reflexivity.
      - rewrite Hp, E1. exact Hopen2.
      - rewrite E1. exact Hw2. }
    rewrite E2. split.
    + rewrite lookup_insert_ne by congruence. apply lookup_insert_eq.
    + apply lookup_insert_eq.
Qed.


End PersistenceNames.

(** ** Further properties of the data URI prefix *)

Lemma find_char_first (c : ascii) (header rest : str) (i : Z) :
  ~ In c (list_ascii_of_string header) ->
  find_from i (header +:+ String c rest) (String c "") = i + len header.
Proof.
  revert i. induction header as [|a header IH]; intros i Hin.
  - change ("" +:+ String c rest) with (String c rest).
    rewrite find_char_cons, Ascii.eqb_refl. unfold len. cbn. lia.
  - change (String a header +:+ String c rest)
      with (String a (header +:+ String c rest)).
    rewrite find_char_cons.
    assert (Hne : Ascii.eqb c a = false).
    { apply Ascii.eqb_neq. intros ->. apply Hin. cbn. left. reflexivity. }
    rewrite Hne, IH.
    + unfold len. cbn [String.length]. lia.
    + intros Hh. apply Hin. cbn. right. exact Hh.
Qed.

Lemma drop_chars_app (header rest : str) :
  drop_chars (String.length header) (header +:+ rest) = rest.
Proof.
  induction header as [|a header IH]; [destruct rest; reflexivity|].
  change (String a header +:+ rest) with (String a (header +:+ rest)).
  cbn [String.length drop_chars]. exact IH.
Qed.

(** X14: the cut is at the first comma.  When the string begins with
    [data:], what is decoded is all that follows the first comma, later
    commas included; nothing but the presence of a comma is asked of the
    header, which may name any media type or none. *)
Theorem strip_data_uri_cuts_at_first_comma (header rest : str) :
  startswith (header +:+ "," +:+ rest) "data:" = true ->
  ~ In ","%char (list_ascii_of_string header) ->
  find (header +:+ "," +:+ rest) "," = len header
  /\ strip_data_uri (header +:+ "," +:+ rest) = rest.
Proof.
  intros Hs Hnc.
  assert (Hf : find (header +:+ "," +:+ rest) "," = len header).
  { unfold find. change ("," +:+ rest) with (String ","%char rest).
    rewrite find_char_first by exact Hnc. lia. }
  split; [exact Hf|].
  unfold strip_data_uri. rewrite Hs, Hf.
  assert (Hlen : 0 <= len header) by (unfold len; lia).
  destruct (len header =? -1) eqn:Hm; [apply Z.eqb_eq in Hm; lia|].
  cbn [negb]. unfold slice_from.
  destruct (len header + 1 <? 0) eqn:Hneg; [apply Z.ltb_lt in Hneg; lia|].
  unfold len. replace (Z.to_nat (Z.of_nat (String.length header) + 1))
    with (String.length (header +:+ ",")).
  - replace (header +:+ "," +:+ rest) with ((header +:+ ",") +:+ rest).
    + apply drop_chars_app.
    + clear. induction header as [|a header IH]; [reflexivity|].
      change (String a header +:+ ",") with (String a (header +:+ ",")).
      change (String a (header +:+ ",") +:+ rest)
        with (String a ((header +:+ ",") +:+ rest)).
      rewrite IH. reflexivity.
  - rewrite length_append. cbn [String.length]. lia.
Qed.

(** ** Further properties of the timestamp *)

Lemma fmt_0d_length (w : nat) (n : Z) :
  (1 <= w)%nat -> 0 <= n < 10 ^ Z.of_nat w -> String.length (fmt_0d w n) = w.
Proof.
  intros Hw Hn. rewrite fmt_0d_fixed by assumption.
  rewrite fixed_acc_length. cbn [String.length]. lia.
Qed.

Lemma isoformat_length (d : datetime) :
  datetime_ok d ->
  String.length (isoformat d) = if microsecond d =? 0 then 25%nat else 32%nat.
Proof.
  destruct d as [y mo dd h mi se us]. unfold datetime_ok.
  cbn [year month day hour minute second microsecond].
  intros (Hy & Hmo & Hd & Hh & Hmi & Hse & Hus). unfold isoformat.
  cbn [year month day hour minute second microsecond].
  assert (H4 : String.length (fmt_0d 4 y) = 4%nat)
    by (apply fmt_0d_length; [lia | change (10 ^ Z.of_nat 4) with 10000; lia]).
  assert (H2 : forall n, 0 <= n <= 99 -> String.length (fmt_0d 2 n) = 2%nat)
    by (intros n Hn; apply fmt_0d_length; [lia | change (10 ^ Z.of_nat 2) with 100; lia]).
  assert (H6 : String.length (fmt_0d 6 us) = 6%nat)
    by (apply fmt_0d_length; [lia | change (10 ^ Z.of_nat 6) with 1000000; lia]).
  rewrite !length_append, H4, !H2 by lia.
  destruct (us =? 0).
  - reflexivity.
  - rewrite !length_append, H6. reflexivity.
Qed.

(** X15: the timestamp of an acknowledgment denotes the reading of the
    clock it was made from: read back as ISO 8601 it gives that instant, to
    the microsecond, so that two instants never share a timestamp.  Its
    length is not fixed: it has 32 characters, and only 25, without the
    fraction, when the microsecond is 0.  Making it reads the clock once. *)
Theorem current_iso_timestamp_round_trip (w : World) :
  datetime_ok (next_now w) ->
  exists ts w1,
    current_iso_timestamp w = (Ok ts, w1)
    /\ parse_iso8601_utc ts = Some (next_now w)
    /\ String.length ts = (if microsecond (next_now w) =? 0 then 25%nat else 32%nat)
    /\ clock_reads w1 = S (clock_reads w)
    /\ (forall w', datetime_ok (next_now w') ->
          fst (current_iso_timestamp w') = Ok ts -> next_now w' = next_now w).
Proof.
  intros Hok. eexists _, _. split; [reflexivity|]. split_and!.
  - apply parse_isoformat, Hok.
  - apply isoformat_length, Hok.
  - reflexivity.
  - intros w' Hok' Hts. cbn in Hts. inversion Hts as [Heq].
    pose proof (parse_isoformat _ Hok') as Hp.
    pose proof (parse_isoformat _ Hok) as Hq.
    unfold next_now in *. rewrite Heq, Hq in Hp. inversion Hp. reflexivity.
Qed.

(** ** Further properties of the decoder *)

Lemma uchar_is_byte (z : Z) : is_byte (uchar z).
Proof.
  unfold is_byte, uchar. change 255 with (Z.ones 8).
  rewrite Z.land_ones by lia. pose proof (Z.mod_pos_bound z (2 ^ 8) ltac:(lia)).
  change (Z.ones 8) with 255. change (2 ^ 8) with 256 in *. lia.
Qed.

Lemma a2b_scan_bytes l q lc p out bs :
  Forall is_byte out -> a2b_scan l q lc p out = Ok bs -> Forall is_byte bs.
Proof.
  revert q lc p out. induction l as [|b l IH]; intros q lc p out Hout Hr;
    cbn [a2b_scan] in Hr.
  - destruct (q =? 0); [|discriminate Hr]. inversion Hr; subst. exact Hout.
  - assert (Hsnoc : forall z, Forall is_byte (out ++ [uchar z])).
    { intros z. apply Forall_app. split; [exact Hout|].
      constructor; [apply uchar_is_byte | constructor]. }
    repeat match type of Hr with
           | context [if ?c then _ else _] => destruct c
           end;
      try (inversion Hr; subst; exact Hout);
      try (eapply IH; [|exact Hr]; first [exact Hout | apply Hsnoc]).
Qed.

(** Four data characters give three bytes. *)
Lemma a2b_scan_length l q lc p out bs :
  0 <= q < 4 ->
  a2b_scan l q lc p out = Ok bs ->
  4 * Z.of_nat (length bs)
    <= 4 * Z.of_nat (length out) + 3 * count_data l + group_credit q.
Proof.
  revert q lc p out. induction l as [|b l IH]; intros q lc p out Hq Hr.
  - cbn in Hr. destruct (q =? 0) eqn:Hz; [|discriminate Hr].
    inversion Hr; subst. unfold group_credit. rewrite Hz. cbn [count_data]. lia.
  - cbn [a2b_scan count_data] in *. unfold is_data.
    assert (Hcr : 0 <= group_credit q)
      by (unfold group_credit; destruct (q =? 0); lia).
    assert (Hcnt : 0 <= count_data l).
    { clear. induction l as [|x l IHl]; cbn [count_data]; [lia|].
      destruct (is_data x); lia. }
    destruct (b =? BASE64_PAD) eqn:Hp; cbn [negb andb].
    + destruct (2 <=? q); [destruct (4 <=? q + (p + 1))|].
      * inversion Hr; subst. lia.
      * apply IH in Hr; [lia | exact Hq].
      * apply IH in Hr; [lia | exact Hq].
    + destruct (64 <=? table_a2b_base64 b) eqn:Ht.
      * apply Z.leb_le in Ht. apply Z.ltb_ge in Ht. rewrite Ht.
        apply IH in Hr; [lia | exact Hq].
      * apply Z.leb_gt in Ht. apply Z.ltb_lt in Ht. rewrite Ht.
        assert (Hc : q = 0 \/ q = 1 \/ q = 2 \/ q = 3) by lia.
        destruct Hc as [->|[->|[->| ->]]]; cbn [Z.eqb Pos.eqb] in Hr;
          apply IH in Hr; try lia; rewrite ?length_app in Hr;
          cbn [length group_credit Z.eqb Pos.eqb] in *;
          unfold group_credit in *; cbn [Z.eqb Pos.eqb] in *; lia.
Qed.

Lemma count_chars_le_length (p : ascii -> bool) (s : str) :
  0 <= count_chars p s <= Z.of_nat (String.length s).
Proof.
  induction s as [|c s IH]; cbn [count_chars String.length]; [lia|].
  destruct (p c); lia.
Qed.

(** X16: what the decoder gives is a sequence of bytes: every element
    is between 0 and 255.  So is all that the JSON handler and the text
    frames of the socket hand to [save_image]. *)
Theorem decoded_image_is_bytes (s : str) (bs : bytes) :
  b64decode s = Ok bs -> Forall is_byte bs.
Proof.
  unfold b64decode. destruct (encode_ascii s) as [codes|e]; [|discriminate].
  cbn [rbind]. unfold a2b_base64. apply a2b_scan_bytes. constructor.
Qed.

(** X17: the decoded image is never longer than three quarters of the
    text: four bytes of output need three alphabet characters of input, and
    the other characters give nothing. *)
Theorem decoded_image_length (s : str) (bs : bytes) :
  b64decode s = Ok bs ->
  4 * Z.of_nat (length bs) <= 3 * count_chars is_base64_char s
  /\ 4 * Z.of_nat (length bs) <= 3 * Z.of_nat (String.length s).
Proof.
  unfold b64decode. destruct (encode_ascii s) as [codes|e] eqn:He; [|discriminate].
  cbn [rbind]. unfold a2b_base64. intros Hr.
  apply a2b_scan_length in Hr; [|lia].
  rewrite (encode_ascii_count s codes He) in Hr.
  cbn [length group_credit Z.eqb] in Hr. unfold group_credit in Hr. cbn in Hr.
  pose proof (count_chars_le_length is_base64_char s). lia.
Qed.

(** ** The decoder on standard encodings *)

Section RoundTrip.

Lemma upto_forallb (n : nat) (f : Z -> bool) :
  forallb f (upto n) = true -> forall a, 0 <= a < Z.of_nat n -> f a = true.
Proof.
  intros Hall a Ha. rewrite forallb_forall in Hall. apply Hall.
  unfold upto. apply in_map_iff. exists (Z.to_nat a). split; [lia|].
  apply in_seq. lia.
Qed.

Lemma upto_forallb2 (n m : nat) (f : Z -> Z -> bool) :
  forallb (fun a => forallb (f a) (upto m)) (upto n) = true ->
  forall a b, 0 <= a < Z.of_nat n -> 0 <= b < Z.of_nat m -> f a b = true.
Proof.
  intros Hall a b Ha Hb.
  apply (upto_forallb m (f a)); [|exact Hb].
  apply (upto_forallb n (fun a => forallb (f a) (upto m))); assumption.
Qed.

Lemma b64char_spec (v : Z) :
  0 <= v < 64 ->
  (b64char v =? BASE64_PAD) = false
  /\ table_a2b_base64 (b64char v) = v
  /\ 0 <= b64char v < 128.
Proof.
  intros Hv.
  pose proof (upto_forallb 64
    (fun v => negb (b64char v =? BASE64_PAD)
              && (table_a2b_base64 (b64char v) =? v)
              && (0 <=? b64char v) && (b64char v <? 128))
    ltac:(vm_compute; reflexivity) v Hv) as H.
  cbv beta in H. repeat (apply andb_prop in H as [H ?]).
  apply negb_true_iff in H. split_and!; lia.
Qed.

Lemma sextet14_spec (a : Z) :
  is_byte a ->
  0 <= sextet1 a < 64
  /\ 0 <= sextet4 a < 64
  /\ uchar (Z.lor (Z.shiftl (sextet1 a) 2) (Z.land a 3)) = a
  /\ uchar (Z.lor (Z.shiftl (Z.shiftr a 4) 4) (Z.land a 15)) = a
  /\ uchar (Z.lor (Z.shiftl (Z.shiftr a 6) 6) (sextet4 a)) = a.
Proof.
  intros Ha.
  pose proof (upto_forallb 256
    (fun a => (0 <=? sextet1 a) && (sextet1 a <? 64)
              && (0 <=? sextet4 a) && (sextet4 a <? 64)
              && (uchar (Z.lor (Z.shiftl (sextet1 a) 2) (Z.land a 3)) =? a)
              && (uchar (Z.lor (Z.shiftl (Z.shiftr a 4) 4) (Z.land a 15)) =? a)
              && (uchar (Z.lor (Z.shiftl (Z.shiftr a 6) 6) (sextet4 a)) =? a))
    ltac:(vm_compute; reflexivity) a ltac:(unfold is_byte in Ha; lia)) as H.
  cbv beta in H. repeat (apply andb_prop in H as [H ?]).
  split_and!; lia.
Qed.

Lemma sextet23_spec (a b : Z) :
  is_byte a -> is_byte b ->
  0 <= sextet2 a b < 64
  /\ Z.shiftr (sextet2 a b) 4 = Z.land a 3
  /\ Z.land (sextet2 a b) 15 = Z.shiftr b 4
  /\ 0 <= sextet3 a b < 64
  /\ Z.shiftr (sextet3 a b) 2 = Z.land a 15
  /\ Z.land (sextet3 a b) 3 = Z.shiftr b 6.
Proof.
  intros Ha Hb.
  pose proof (upto_forallb2 256 256
    (fun a b => (0 <=? sextet2 a b) && (sextet2 a b <? 64)
                && (Z.shiftr (sextet2 a b) 4 =? Z.land a 3)
                && (Z.land (sextet2 a b) 15 =? Z.shiftr b 4)
                && (0 <=? sextet3 a b) && (sextet3 a b <? 64)
                && (Z.shiftr (sextet3 a b) 2 =? Z.land a 15)
                && (Z.land (sextet3 a b) 3 =? Z.shiftr b 6))
    ltac:(vm_compute; reflexivity) a b
    ltac:(unfold is_byte in Ha; lia) ltac:(unfold is_byte in Hb; lia)) as H.
  cbv beta in H. repeat (apply andb_prop in H as [H ?]).
  split_and!; lia.
Qed.

Lemma zero_is_byte : is_byte 0.
Proof. unfold is_byte. lia. Qed.

(** One alphabet character in the scan. *)
Lemma a2b_scan_char (v : Z) rest q lc p out :
  0 <= v < 64 ->
  a2b_scan (b64char v :: rest) q lc p out =
    if q =? 0 then a2b_scan rest 1 v 0 out
    else if q =? 1 then
      a2b_scan rest 2 (Z.land v 15) 0
        (out ++ [uchar (Z.lor (Z.shiftl lc 2) (Z.shiftr v 4))])
    else if q =? 2 then
      a2b_scan rest 3 (Z.land v 3) 0
        (out ++ [uchar (Z.lor (Z.shiftl lc 4) (Z.shiftr v 2))])
    else a2b_scan rest 0 0 0 (out ++ [uchar (Z.lor (Z.shiftl lc 6) v)]).
Proof.
  intros Hv. destruct (b64char_spec v Hv) as (Hp & Ht & _).
  cbn [a2b_scan]. rewrite Hp, Ht.
  destruct (64 <=? v) eqn:H64; [apply Z.leb_le in H64; lia|]. reflexivity.
Qed.

(** Two characters give the first byte. *)
Lemma a2b_scan_pair (a b : Z) rest lc p out :
  is_byte a -> is_byte b ->
  a2b_scan (b64char (sextet1 a) :: b64char (sextet2 a b) :: rest) 0 lc p out =
  a2b_scan rest 2 (Z.shiftr b 4) 0 (out ++ [a]).
Proof.
  intros Ha Hb.
  destruct (sextet14_spec a Ha) as (H1 & _ & Ho1 & _).
  destruct (sextet23_spec a b Ha Hb) as (H2 & Hs2 & Hl2 & _).
  rewrite (a2b_scan_char _ _ _ _ _ _ H1). cbn [Z.eqb].
  rewrite (a2b_scan_char _ _ _ _ _ _ H2). cbn [Z.eqb Pos.eqb].
  rewrite Hs2, Hl2, Ho1. reflexivity.
Qed.

(** Three characters give the second byte. *)
Lemma a2b_scan_triple (a b c : Z) rest lc p out :
  is_byte a -> is_byte b -> is_byte c ->
  a2b_scan (b64char (sextet1 a) :: b64char (sextet2 a b)
            :: b64char (sextet3 b c) :: rest) 0 lc p out =
  a2b_scan rest 3 (Z.shiftr c 6) 0 (out ++ [a; b]).
Proof.
  intros Ha Hb Hc. rewrite (a2b_scan_pair a b _ _ _ _ Ha Hb).
  destruct (sextet14_spec b Hb) as (_ & _ & _ & Ho2 & _).
  destruct (sextet23_spec b c Hb Hc) as (_ & _ & _ & H3 & Hs3 & Hl3).
  rewrite (a2b_scan_char _ _ _ _ _ _ H3). cbn [Z.eqb Pos.eqb].
  rewrite Hs3, Hl3, Ho2, <- app_assoc. reflexivity.
Qed.

(** A whole group gives its three bytes and leaves the scan between
    groups. *)
Lemma a2b_scan_group (a b c : Z) rest lc p out :
  is_byte a -> is_byte b -> is_byte c ->
  a2b_scan (b64char (sextet1 a) :: b64char (sextet2 a b)
            :: b64char (sextet3 b c) :: b64char (sextet4 c) :: rest) 0 lc p out =
  a2b_scan rest 0 0 0 (out ++ [a; b; c]).
Proof.
  intros Ha Hb Hc. rewrite (a2b_scan_triple a b c _ _ _ _ Ha Hb Hc).
  destruct (sextet14_spec c Hc) as (_ & H4 & _ & _ & Ho3).
  rewrite (a2b_scan_char _ _ _ _ _ _ H4). cbn [Z.eqb Pos.eqb].
  rewrite Ho3, <- app_assoc. reflexivity.
Qed.

(** Between groups the scan keeps nothing of what came before. *)
Lemma a2b_scan_between_groups l lc p out :
  a2b_scan l 0 lc p out = a2b_scan l 0 0 0 out.
Proof.
  revert lc p. induction l as [|b l IH]; intros lc p; [reflexivity|].
  cbn [a2b_scan]. cbn [Z.leb Z.compare Z.eqb].
  destruct (b =? BASE64_PAD); [rewrite (IH lc p); reflexivity|].
  destruct (64 <=? table_a2b_base64 b); [rewrite (IH lc p)|]; reflexivity.
Qed.

Lemma list_ind3 (A : Type) (P : list A -> Prop) :
  P [] -> (forall a, P [a]) -> (forall a b, P [a; b]) ->
  (forall a b c rest, P rest -> P (a :: b :: c :: rest)) ->
  forall l, P l.
Proof.
  intros H0 H1 H2 H3.
  assert (Hall : forall l, P l /\ (forall a, P (a :: l)) /\ (forall a b, P (a :: b :: l))).
  { induction l as [|x l (IH0 & IH1 & IH2)].
    - split_and!; [exact H0 | exact H1 | exact H2].
    - split_and!.
      + exact (IH1 x).
      + intros a. exact (IH2 a x).
      + intros a b. exact (H3 a b x l IH0). }
  intros l. apply Hall.
Qed.

(** The scan of an encoding, with anything after it: whole groups give
    their bytes and the scan goes on; a padded last group gives its bytes
    and ends the scan there. *)
Lemma a2b_scan_encoding (bs tail : bytes) lc p out :
  Forall is_byte bs ->
  a2b_scan (b2a_base64 bs ++ tail) 0 lc p out =
    if (length bs mod 3 =? 0)%nat
    then a2b_scan tail 0 0 0 (out ++ bs)
    else Ok (out ++ bs).
Proof.
  revert lc p out. induction bs as [|a|a b|a b c rest IH] using list_ind3;
    intros lc p out Hbs.
  - cbn. rewrite app_nil_r. apply a2b_scan_between_groups.
  - inversion Hbs as [|? ? Ha _]; subst. cbn [b2a_base64 app].
    rewrite (a2b_scan_pair a 0 _ _ _ _ Ha zero_is_byte). reflexivity.
  - inversion Hbs as [|? ? Ha Hbs']; subst. inversion Hbs' as [|? ? Hb _]; subst.
    cbn [b2a_base64 app].
    rewrite (a2b_scan_triple a b 0 _ _ _ _ Ha Hb zero_is_byte). reflexivity.
  - inversion Hbs as [|? ? Ha Hbs1]; subst. inversion Hbs1 as [|? ? Hb Hbs2]; subst.
    inversion Hbs2 as [|? ? Hc Hrest]; subst.
    cbn [b2a_base64 app]. rewrite (a2b_scan_group a b c _ _ _ _ Ha Hb Hc).
    rewrite (IH 0 0 _ Hrest). rewrite <- app_assoc.
    replace (length (a :: b :: c :: rest) mod 3)%nat with (length rest mod 3)%nat.
    + reflexivity.
    + cbn [length]. replace (S (S (S (length rest)))) with (length rest + 1 * 3)%nat by lia.
      rewrite Nat.Div0.mod_add. reflexivity.
Qed.

End RoundTrip.

Section RoundTripTheorems.

Lemma ord_chr (c : Z) : 0 <= c < 256 -> ord (chr c) = c.
Proof.
  intros Hc. unfold ord, chr. rewrite N_ascii_embedding by lia. lia.
Qed.

Lemma b64char_code (v : Z) : 0 <= v < 64 -> is_base64_code (b64char v).
Proof.
  intros Hv. destruct (b64char_spec v Hv) as (Hp & Ht & Hr).
  split; [exact Hr|]. right. split; [exact Hp | lia].
Qed.

Lemma pad_code : is_base64_code BASE64_PAD.
Proof. split; [unfold BASE64_PAD; lia | left; reflexivity]. Qed.

Lemma b2a_base64_codes (bs : bytes) :
  Forall is_byte bs -> Forall is_base64_code (b2a_base64 bs).
Proof.
  induction bs as [|a|a b|a b c rest IH] using list_ind3; intros Hbs.
  - constructor.
  - inversion Hbs as [|? ? Ha _]; subst.
    destruct (sextet14_spec a Ha) as (H1 & _).
    destruct (sextet23_spec a 0 Ha zero_is_byte) as (H2 & _).
    cbn [b2a_base64].
    repeat (constructor; [first [apply pad_code | apply b64char_code; assumption]|]).
    constructor.
  - inversion Hbs as [|? ? Ha Hbs']; subst. inversion Hbs' as [|? ? Hb _]; subst.
    destruct (sextet14_spec a Ha) as (H1 & _).
    destruct (sextet23_spec a b Ha Hb) as (H2 & _).
    destruct (sextet23_spec b 0 Hb zero_is_byte) as (_ & _ & _ & H3 & _).
    cbn [b2a_base64].
    repeat (constructor; [first [apply pad_code | apply b64char_code; assumption]|]).
    constructor.
  - inversion Hbs as [|? ? Ha Hbs1]; subst. inversion Hbs1 as [|? ? Hb Hbs2]; subst.
    inversion Hbs2 as [|? ? Hc Hrest]; subst.
    destruct (sextet14_spec a Ha) as (H1 & _).
    destruct (sextet23_spec a b Ha Hb) as (H2 & _).
    destruct (sextet23_spec b c Hb Hc) as (_ & _ & _ & H3 & _).
    destruct (sextet14_spec c Hc) as (_ & H4 & _).
    cbn [b2a_base64].
    do 4 (constructor; [apply b64char_code; assumption|]).
    apply IH, Hrest.
Qed.

Lemma encode_ascii_codes (l : bytes) :
  Forall is_base64_code l -> encode_ascii (string_of_codes l) = Ok l.
Proof.
  induction 1 as [|c l [Hc _] _ IH]; [reflexivity|].
  cbn [string_of_codes encode_ascii]. rewrite ord_chr by lia.
  destruct (c <? 128) eqn:Hlt; [|apply Z.ltb_ge in Hlt; lia].
  rewrite IH. reflexivity.
Qed.

Lemma base64_text_codes (l : bytes) :
  Forall is_base64_code l -> base64_text (string_of_codes l) = true.
Proof.
  induction 1 as [|c l [Hc Hk] _ IH]; [reflexivity|].
  unfold base64_text in *. cbn [string_of_codes all_chars]. rewrite IH, andb_true_r.
  unfold is_base64_char, is_pad_char. rewrite ord_chr by lia.
  destruct Hk as [->|[Hp Ht]]; [reflexivity|].
  rewrite Hp. cbn [negb andb orb]. rewrite orb_false_r. apply Z.ltb_lt, Ht.
Qed.

Lemma encode_ascii_app (s1 s2 : str) (c1 : bytes) :
  encode_ascii s1 = Ok c1 ->
  encode_ascii (s1 +:+ s2) = rbind (encode_ascii s2) (fun c2 => Ok (c1 ++ c2)).
Proof.
  revert c1. induction s1 as [|c s1 IH]; intros c1 He.
  - cbn in He. inversion He; subst. change ("" +:+ s2) with s2.
    destruct (encode_ascii s2); reflexivity.
  - change (String c s1 +:+ s2) with (String c (s1 +:+ s2)).
    cbn [encode_ascii] in *. destruct (ord c <? 128); [|discriminate He].
    destruct (encode_ascii s1) as [c1'|]; [|discriminate He].
    cbn [rbind] in He. inversion He; subst. rewrite (IH c1' eq_refl).
    destruct (encode_ascii s2); reflexivity.
Qed.

(** What was written before does not change what the scan adds. *)
Lemma a2b_scan_out l q lc p (o1 o2 : bytes) :
  a2b_scan l q lc p (o1 ++ o2) =
    rbind (a2b_scan l q lc p o2) (fun r => Ok (o1 ++ r)).
Proof.
  revert q lc p o2. induction l as [|b l IH]; intros q lc p o2; cbn [a2b_scan].
  - destruct (q =? 0); reflexivity.
  - repeat match goal with
           | |- context [if ?c then _ else _] => destruct c
           end; try reflexivity; rewrite <- ?app_assoc; apply IH.
Qed.

Lemma b64decode_b64encode (bs : bytes) :
  Forall is_byte bs -> b64decode (b64encode bs) = Ok bs.
Proof.
  intros Hbs. unfold b64decode, b64encode.
  rewrite (encode_ascii_codes _ (b2a_base64_codes bs Hbs)). cbn [rbind].
  unfold a2b_base64. rewrite <- (app_nil_r (b2a_base64 bs)).
  rewrite (a2b_scan_encoding bs [] 0 0 [] Hbs).
  destruct (length bs mod 3 =? 0)%nat; reflexivity.
Qed.

Lemma b64encode_not_data_uri (bs : bytes) :
  Forall is_byte bs -> strip_data_uri (b64encode bs) = b64encode bs.
Proof.
  intros Hbs. apply strip_data_uri_plain, base64_text_not_data_uri.
  apply base64_text_codes, b2a_base64_codes, Hbs.
Qed.

(** X18: the round trip.  Whatever bytes a client encodes in standard
    base64, the decoder gives them back; so the JSON handler, given the
    encoding bare or after [data:image/jpeg;base64,], schedules the save of
    exactly those bytes, whatever the label. *)
Theorem upload_of_encoded_image (bs : bytes) :
  Forall is_byte bs ->
  b64decode (b64encode bs) = Ok bs
  /\ (forall lbl w,
        scheduled (snd (upload_base64 (mkBase64Upload lbl (b64encode bs)) w))
        = scheduled w ++ [save_image_call bs (of_optional lbl)])
  /\ (forall lbl w,
        scheduled
          (snd (upload_base64
                  (mkBase64Upload lbl ("data:image/jpeg;base64," +:+ b64encode bs)) w))
        = scheduled w ++ [save_image_call bs (of_optional lbl)]).
Proof.
  intros Hbs. pose proof (b64decode_b64encode bs Hbs) as Hd. split_and!.
  - exact Hd.
  - intros lbl w. rewrite (upload_base64_decoded _ w bs).
    + reflexivity.
    + cbn [image]. rewrite (b64encode_not_data_uri bs Hbs). exact Hd.
  - intros lbl w. rewrite (upload_base64_decoded _ w bs).
    + reflexivity.
    + cbn [image]. rewrite strip_data_uri_jpeg. exact Hd.
Qed.

(** X19: a pad sequence ends the decoding.  After an encoding that ends
    with padding, any ASCII text may follow: it is not decoded, not even
    checked, and the image is the one that was encoded. *)
Theorem text_after_padding_is_ignored (bs : bytes) (junk : str) :
  Forall is_byte bs ->
  (length bs mod 3 <> 0)%nat ->
  all_chars is_ascii_char junk = true ->
  b64decode (b64encode bs +:+ junk) = Ok bs.
Proof.
  intros Hbs Hmod Hjunk. destruct (encode_ascii_ok junk Hjunk) as [codes Hcodes].
  unfold b64decode, b64encode.
  rewrite (encode_ascii_app _ junk _ (encode_ascii_codes _ (b2a_base64_codes bs Hbs))).
  rewrite Hcodes. cbn [rbind]. unfold a2b_base64.
  rewrite (a2b_scan_encoding bs codes 0 0 [] Hbs).
  apply Nat.eqb_neq in Hmod. rewrite Hmod. reflexivity.
Qed.

(** X20: encodings of whole groups can be put end to end.  After the
    encoding of a number of bytes that is a multiple of three, which has no
    padding, the decoder goes on with the rest of the text as if it began
    there: it gives the bytes of both, or fails as on the rest alone. *)
Theorem encodings_concatenate (bs : bytes) (s : str) :
  Forall is_byte bs ->
  (length bs mod 3 = 0)%nat ->
  b64decode (b64encode bs +:+ s) =
    rbind (b64decode s) (fun rest => Ok (bs ++ rest)).
Proof.
  intros Hbs Hmod. unfold b64decode, b64encode.
  rewrite (encode_ascii_app _ s _ (encode_ascii_codes _ (b2a_base64_codes bs Hbs))).
  destruct (encode_ascii s) as [codes|e]; [|reflexivity].
  cbn [rbind]. unfold a2b_base64.
  rewrite (a2b_scan_encoding bs codes 0 0 [] Hbs).
  apply Nat.eqb_eq in Hmod. rewrite Hmod. cbn [app].
  rewrite <- (app_nil_r bs) at 1. apply a2b_scan_out.
Qed.

End RoundTripTheorems.

(** ** The further theorems at sample inputs *)

Section MoreSamples.

Import Sample.

Lemma jpeg_header_bytes : Forall is_byte [255; 216; 255].
Proof. repeat constructor; unfold is_byte; lia. Defined.

Lemma jpeg_header_two_bytes : Forall is_byte [255; 216].
Proof. repeat constructor; unfold is_byte; lia. Defined.

Lemma sample_loads_raises_Exceptions : loads_raises_Exceptions (H := library).
Proof.
  intros text e. cbn [json_loads library]. unfold loads.
  destruct (String.eqb text labelled_text); [discriminate|].
  destruct (String.eqb text number_text); [discriminate|].
  destruct (String.eqb text short_text); [discriminate|].
  intros He. inversion He. reflexivity.
Defined.

Lemma two_sends_go_through : sends_go_through [None; None].
Proof. repeat constructor. Defined.

Lemma websocket_one_frame_per_answered_message_witness :
  loads_raises_Exceptions (H := library)
  /\ sends_go_through [None; None]
  /\ exists frames w1 rest,
       Socket.websocket_endpoint
         (map Ok [text_message number_text None; Sample2.ping;
                  binary_message [1; 2]; Sample2.disconnect; binary_message [3]])
         (world, [None; None])
       = (Ok returned, (w1, rest))
       /\ sent w1 = sent world ++ frames
       /\ length frames = 2%nat.
Proof.
  split; [exact sample_loads_raises_Exceptions|].
  split; [exact two_sends_go_through|].
  exact (websocket_one_frame_per_answered_message
           [text_message number_text None; Sample2.ping;
            binary_message [1; 2]; Sample2.disconnect; binary_message [3]]
           world [None; None] sample_loads_raises_Exceptions two_sends_go_through).
Defined.

Lemma websocket_disconnect_is_absorbed_witness :
  parse_text_frame labelled_text = Ok (decoded (PyStr "a") [65; 66; 67])
  /\ Socket.websocket_endpoint
       [Ok (text_message labelled_text None); Ok (binary_message [3])]
       (world, [Some WebSocketDisconnect])
     = (Ok returned, (acked (save_image_call [65; 66; 67] (PyStr "a")) world, []))
  /\ Socket.websocket_endpoint
       [Ok (text_message labelled_text None); Ok (binary_message [3])]
       (world, [Some RuntimeError])
     = (Raise RuntimeError, (acked (save_image_call [65; 66; 67] (PyStr "a")) world, [])).
Proof.
  assert (Hp : parse_text_frame labelled_text = Ok (decoded (PyStr "a") [65; 66; 67]))
    by reflexivity.
  destruct (websocket_disconnect_is_absorbed (library := library))
    as (_ & _ & _ & Htext).
  split; [exact Hp|]. split.
  - exact (Htext labelled_text None (PyStr "a") [65; 66; 67] WebSocketDisconnect
             [Ok (binary_message [3])] world [] Hp).
  - exact (Htext labelled_text None (PyStr "a") [65; 66; 67] RuntimeError
             [Ok (binary_message [3])] world [] Hp).
Defined.

Lemma failed_format_error_is_handled_as_malformed_witness :
  parse_text_frame number_text = Ok not_a_string
  /\ is_Exception RuntimeError = true
  /\ Socket.websocket_iteration (text_message number_text None)
       (world, [Some RuntimeError; None])
     = (Ok next_iteration, (with_sent malformed_error world, [])).
Proof.
  assert (Hp : parse_text_frame number_text = Ok not_a_string) by reflexivity.
  split; [exact Hp|]. split; [reflexivity|].
  exact (proj1 (proj1 (failed_format_error_is_handled_as_malformed
                         number_text None RuntimeError world [] Hp) eq_refl)).
Defined.

Lemma websocket_stops_at_disconnect_witness :
  is_disconnect Sample2.disconnect = true
  /\ websocket_endpoint
       ([binary_message [1; 2]] ++ Sample2.disconnect :: [binary_message [3]]) world
     = websocket_endpoint ([binary_message [1; 2]] ++ [Sample2.disconnect]) world.
Proof.
  split; [reflexivity|].
  exact (proj1 (websocket_stops_at_disconnect [binary_message [1; 2]]
                  [binary_message [3]] Sample2.disconnect world eq_refl)).
Defined.

Lemma websocket_runs_compose_witness :
  existsb is_disconnect [binary_message [1; 2]; Sample2.ping] = false
  /\ websocket_endpoint ([binary_message [1; 2]; Sample2.ping] ++ [binary_message [3]]) world
     = websocket_endpoint [binary_message [3]]
         (snd (websocket_endpoint [binary_message [1; 2]; Sample2.ping] world)).
Proof.
  split; [reflexivity|].
  exact (proj2 (websocket_runs_compose [binary_message [1; 2]; Sample2.ping]
                  [binary_message [3]] world eq_refl)).
Defined.

Lemma websocket_text_without_image_witness :
  json_loads (Library := Sample2.library) Sample2.array_text = Ok (PyList [PyInt 1])
  /\ websocket_iteration (library := Sample2.library)
       (text_message Sample2.array_text None) world
     = (Ok next_iteration, with_sent malformed_error world)
  /\ json_loads (Library := Sample2.library) Sample2.empty_object_text = Ok (PyDict [])
  /\ websocket_iteration (library := Sample2.library)
       (text_message Sample2.empty_object_text None) world
     = (Ok next_iteration, with_sent format_error world).
Proof.
  split; [reflexivity|]. split.
  - apply (proj1 (websocket_text_without_image (library := Sample2.library)
                    Sample2.array_text None (PyList [PyInt 1]) world eq_refl)).
    discriminate.
  - split; [reflexivity|].
    apply (proj2 (websocket_text_without_image (library := Sample2.library)
                    Sample2.empty_object_text None (PyDict []) world eq_refl) []);
      reflexivity.
Defined.

Lemma disabled_storage_never_writes_witness :
  STORE_IMAGES (Settings := not_storing) = false
  /\ run_tasks (H := not_storing) [save_image_call [1; 2; 3] (PyStr "cam1")] world = world.
Proof.
  split; [reflexivity|].
  exact (disabled_storage_never_writes (settings := not_storing)
           [save_image_call [1; 2; 3] (PyStr "cam1")] world eq_refl).
Defined.

Lemma saves_in_one_second_collide_witness :
  STORE_IMAGES (Settings := storing) = true
  /\ opening (system world) (image_path (H := storing) (next_now world) (Some "cam1"))
     = Ok (file_named "20240102T120005Z_cam1.jpg")
  /\ files (snd (save_image (settings := storing) [4; 5] (PyStr "cam1")
                   (snd (save_image (settings := storing) [1; 2; 3] (PyStr "cam1") world))))
     = <[file_named "20240102T120005Z_cam1.jpg" := [4; 5]]> (files world).
Proof.
  assert (Hopen : opening (system world)
                    (image_path (H := storing) (next_now world) (Some "cam1"))
                  = Ok (file_named "20240102T120005Z_cam1.jpg")) by reflexivity.
  split; [reflexivity|]. split; [exact Hopen|].
  exact (proj2 (proj2 (saves_in_one_second_collide (settings := storing)
           [1; 2; 3] [4; 5] (Some "cam1") (Some "cam1") world _
           eq_refl eq_refl eq_refl Hopen eq_refl eq_refl))).
Defined.

Lemma labels_keep_saves_apart_witness :
  label_suffix (Some "cam1") <> label_suffix (Some "cam2")
  /\ image_path (H := storing) noon (Some "cam1")
     <> image_path (H := storing) noon (Some "cam2")
  /\ (let w1 := snd (save_image (settings := storing) [1; 2; 3] (PyStr "cam1") world) in
      let w2 := snd (save_image (settings := storing) [4; 5] (PyStr "cam2") w1) in
      files w2 !! file_named "20240102T120005Z_cam1.jpg" = Some [1; 2; 3]
      /\ files w2 !! file_named "20240102T120005Z_cam2.jpg" = Some [4; 5])
  /\ label_suffix (Some "a/b") <> label_suffix (Some "a//b")
  /\ image_path (H := storing) noon (Some "a/b")
     = image_path (H := storing) noon (Some "a//b").
Proof.
  assert (Hne : label_suffix (Some "cam1") <> label_suffix (Some "cam2"))
    by discriminate.
  assert (Hyear : 1000 <= year (next_now world)) by (cbn; lia).
  assert (Hfiles : file_named "20240102T120005Z_cam1.jpg"
                   <> file_named "20240102T120005Z_cam2.jpg")
    by (vm_compute; discriminate).
  destruct (labels_keep_saves_apart (settings := storing)
              [1; 2; 3] [4; 5] (Some "cam1") (Some "cam2") world
              (file_named "20240102T120005Z_cam1.jpg")
              (file_named "20240102T120005Z_cam2.jpg")
              eq_refl noon_ok Hyear eq_refl eq_refl eq_refl Hne) as [Hpaths Hsaves].
  split; [exact Hne|]. split; [exact Hpaths|].
  split; [exact (Hsaves eq_refl eq_refl Hfiles eq_refl eq_refl)|].
  split; [discriminate | reflexivity].
Defined.


Lemma strip_data_uri_cuts_at_first_comma_witness :
  startswith ("data:text/plain" +:+ "," +:+ "QUJD,QUJD") "data:" = true
  /\ ~ In ","%char (list_ascii_of_string "data:text/plain")
  /\ strip_data_uri ("data:text/plain" +:+ "," +:+ "QUJD,QUJD") = "QUJD,QUJD".
Proof.
  assert (Hnc : ~ In ","%char (list_ascii_of_string "data:text/plain")).
  { cbn. intros H. repeat (destruct H as [H|H]; [discriminate H|]). exact H. }
  split; [reflexivity|]. split; [exact Hnc|].
  exact (proj2 (strip_data_uri_cuts_at_first_comma "data:text/plain" "QUJD,QUJD"
                  eq_refl Hnc)).
Defined.

Lemma current_iso_timestamp_round_trip_witness :
  datetime_ok (next_now world)
  /\ exists ts w1,
       current_iso_timestamp world = (Ok ts, w1)
       /\ parse_iso8601_utc ts = Some noon
       /\ String.length ts = 25%nat.
Proof.
  split; [exact noon_ok|].
  destruct (current_iso_timestamp_round_trip world noon_ok)
    as (ts & w1 & Hrun & Hparse & Hlen & _).
  exists ts, w1. split_and!; assumption.
Defined.

Lemma decoded_image_is_bytes_witness :
  b64decode "/9j/" = Ok [255; 216; 255] /\ Forall is_byte [255; 216; 255].
Proof.
  split; [reflexivity|].
  exact (decoded_image_is_bytes "/9j/" [255; 216; 255] eq_refl).
Defined.

Lemma decoded_image_length_witness :
  b64decode "/9j/ .-" = Ok [255; 216; 255]
  /\ 4 * Z.of_nat (length [255; 216; 255]) <= 3 * count_chars is_base64_char "/9j/ .-"
  /\ 4 * Z.of_nat (length [255; 216; 255]) <= 3 * Z.of_nat (String.length "/9j/ .-").
Proof.
  split; [reflexivity|].
  exact (decoded_image_length "/9j/ .-" [255; 216; 255] eq_refl).
Defined.

Lemma upload_of_encoded_image_witness :
  Forall is_byte [255; 216; 255]
  /\ b64decode (b64encode [255; 216; 255]) = Ok [255; 216; 255].
Proof.
  split; [exact jpeg_header_bytes|].
  exact (proj1 (upload_of_encoded_image [255; 216; 255] jpeg_header_bytes)).
Defined.

Lemma text_after_padding_is_ignored_witness :
  Forall is_byte [255; 216]
  /\ (length [255; 216] mod 3 <> 0)%nat
  /\ all_chars is_ascii_char "not base64 at all!" = true
  /\ b64decode (b64encode [255; 216] +:+ "not base64 at all!") = Ok [255; 216].
Proof.
  assert (Hmod : (length [255; 216] mod 3 <> 0)%nat) by (cbn; lia).
  split; [exact jpeg_header_two_bytes|]. split; [exact Hmod|].
  split; [reflexivity|].
  exact (text_after_padding_is_ignored [255; 216] "not base64 at all!"
           jpeg_header_two_bytes Hmod eq_refl).
Defined.

Lemma encodings_concatenate_witness :
  Forall is_byte [255; 216; 255]
  /\ (length [255; 216; 255] mod 3 = 0)%nat
  /\ b64decode (b64encode [255; 216; 255] +:+ "QUI=") = Ok [255; 216; 255; 65; 66].
Proof.
  split; [exact jpeg_header_bytes|]. split; [reflexivity|].
  exact (encodings_concatenate [255; 216; 255] "QUI=" jpeg_header_bytes eq_refl).
Defined.

End MoreSamples.
